(** * Battery-monitor bus driver: a shallow embedding of
      [bm_codes/controlFunctions.py] and [controlModule.py]

    The driver talks to a chain of battery monitors (BMs) over one serial
    port.  Command frames have 8 bytes, response frames 14; the last byte
    of a frame is a CRC-8 of the bytes before it.

    Python integers are modelled as [Z]; a [bytes] object received from
    the port is a list of [Byte.byte], read back as integers exactly as
    indexing a [bytes] object does.  The serial port, the two GPIO lines
    and the random generator are threaded through the functions as an
    explicit [World]; [print] and [time.sleep] leave no mark in it. *)

From Stdlib Require Import ZArith Strings.Byte Bool Lia.
From stdpp Require Import base list.

Local Open Scope Z_scope.

(** ** Bytes and Python values *)

(** [bytes_object[i]]: the integer 0..255 held by a byte. *)
Definition Z_of_byte (b : byte) : Z := Z.of_N (Byte.to_N b).

(** The byte holding an integer of 0..255. *)
Definition byte_of_Z (z : Z) : byte := default x00 (Byte.of_N (Z.to_N z)).

(** The test [0 <= z < 256] that [bytearray(...)] applies to every item. *)
Definition is_byte (z : Z) : bool := (0 <=? z) && (z <? 256).

(** Storing a Python integer into a [numpy.uint16] cell keeps its low
    16 bits; the values the driver stores are all below 65536
    ([cell_of_bytes], [cell_of_mock]). *)
Definition wrap16 (z : Z) : Z := z mod 65536.

(** [seq[i]] for an index the code keeps inside the sequence. *)
Definition item (l : list Z) (i : nat) : Z := nth i l 0.

(** ** Exceptions and the driver monad *)

Inductive exn : Type :=
| ValueError.

Inductive result (A : Type) : Type :=
| Ok (a : A)
| Raise (e : exn).
Arguments Ok {A} a.
Arguments Raise {A} e.

(** What the driver does to the outside, oldest first. *)
Inductive event : Type :=
| SerialWrite (frame : list Z)   (* serialPort.write(frame) *)
| TriggerIn (on : bool)          (* trigger_in.on() / trigger_in.off() *)
| Buzzer (on : bool).            (* buzzer.on() / buzzer.off() *)

(** The environment of a run.
    - [rx]: the bytes waiting in the serial input buffer;
    - [line]: what the bus delivers after each write still to come (the
      first element answers the next write; nothing arrives once the list
      is used up);
    - [draws]: the raw outcomes of the random generator still to come
      (0 once the list is used up);
    - [trace]: the events so far. *)
Record World : Type := mkWorld {
  rx : list byte;
  line : list (list byte);
  draws : list Z;
  trace : list event
}.

Definition M (A : Type) : Type := World -> result (A * World).

Definition ret {A} (a : A) : M A := fun w => Ok (a, w).

Definition bind {A B} (c : M A) (k : A -> M B) : M B :=
  fun w => match c w with
           | Ok (a, w') => k a w'
           | Raise e => Raise e
           end.

Definition raise {A} (e : exn) : M A := fun _ => Raise e.

Notation "'let*' x := c 'in' k" := (bind c (fun x => k))
  (at level 10, x pattern, c at level 100, k at level 200).
Notation "c ;; k" := (bind c (fun _ => k))
  (at level 100, k at level 200, right associativity).

(** [for i in idx: s = body(i, s)] *)
Fixpoint forM {S : Type} (idx : list nat) (body : nat -> S -> M S) (s : S) : M S :=
  match idx with
  | [] => ret s
  | i :: rest => let* s' := body i s in forM rest body s'
  end.

(** [range(a, a + n)] *)
Definition range (a n : nat) : list nat := seq a n.

(** ** The collaborators: serial port, GPIO, random generator *)

Definition emit (e : event) : M unit := fun w =>
  Ok (tt, mkWorld (rx w) (line w) (draws w) (trace w ++ [e])).

(** [serialPort.reset_input_buffer()] *)
Definition reset_input_buffer : M unit := fun w =>
  Ok (tt, mkWorld [] (line w) (draws w) (trace w)).

(** [serialPort.write(data)]: the frame goes out and the bus delivers its
    next answer into the input buffer.  Every item the driver passes is a
    byte (a constant, a masked value, a CRC, or an address that
    [bytearray] has checked), so the conversion to [bytes] cannot fail. *)
Definition write (data : list Z) : M Z := fun w =>
  Ok (Z.of_nat (length data),
      mkWorld (rx w ++ hd [] (line w)) (tl (line w)) (draws w)
              (trace w ++ [SerialWrite data])).

(** [serialPort.inWaiting()] *)
Definition inWaiting : M Z := fun w => Ok (Z.of_nat (length (rx w)), w).

(** [serialPort.read(n)]: at most [n] bytes, fewer when the timeout ends
    the wait; indexing the result gives integers. *)
Definition read (n : nat) : M (list Z) := fun w =>
  Ok (map Z_of_byte (take n (rx w)),
      mkWorld (drop n (rx w)) (line w) (draws w) (trace w)).

(** [random.randint(a, b)] *)
Definition randint (a b : Z) : M Z := fun w =>
  Ok (a + hd 0 (draws w) mod (b - a + 1),
      mkWorld (rx w) (line w) (tl (draws w)) (trace w)).

(** [bytearray(items)] raises [ValueError] on an item outside 0..255. *)
Definition bytearray (items : list Z) : M (list Z) :=
  if forallb is_byte items then ret items else raise ValueError.

(** The frames written to the port, oldest first. *)
Definition writes (t : list event) : list (list Z) :=
  omap (fun e => match e with SerialWrite f => Some f | _ => None end) t.

(** ** CRC-8 *)

Module CRC8.
Section Params.

(** [crc8.crcCalcCRC8], the CRC engine the driver imports as [getCRC], is
    not among the sources.  The specification leaves polynomial, initial
    value and bit order open, so they are parameters; [reflected] stands
    for a CRC with reflected input and output, which shifts right and
    takes the polynomial bit-reversed. *)
Variable poly : Z.
Variable init : Z.
Variable reflected : bool.

(** Modelled from the spec: one step of "an 8-bit cyclic redundancy
    check" of [crc8.crcCalcCRC8], which is missing from the sources: the
    8-bit register moves by one bit and the polynomial is xored in when a
    set bit falls out. *)
Definition shift (c : Z) : Z :=
  if reflected then
    if Z.testbit c 0 then Z.lxor (Z.shiftr c 1) (Z.land poly 255)
    else Z.shiftr c 1
  else
    if Z.testbit c 7 then Z.land (Z.lxor (Z.shiftl c 1) poly) 255
    else Z.land (Z.shiftl c 1) 255.

(** Modelled from the spec: how the missing [crc8.crcCalcCRC8] takes in
    one byte of the "byte sequence": xor it into the register, then eight
    shifts. *)
Definition update (c b : Z) : Z :=
  Nat.iter 8 shift (Z.land (Z.lxor c b) 255).

(** Modelled from the spec: the register of the missing
    [crc8.crcCalcCRC8] after the first [n] bytes of [data]; nothing is
    xored in at the end, as a checksum that "equals zero" over a frame
    ending in its own checksum requires. *)
Definition checksum (data : list Z) (n : Z) : Z :=
  fold_left update (take (Z.to_nat n) data) (Z.land init 255).

(** Modelled from the spec: [crc8.crcCalcCRC8], missing from the sources,
    as [computeChecksum(bytes, length) -> uint8], "an 8-bit cyclic
    redundancy check over a byte sequence" of "the CRC-8 polynomial
    family". *)
Definition crcCalcCRC8 (data : list Z) (n : Z) : byte :=
  byte_of_Z (checksum data n).

End Params.
End CRC8.

(** ** [controlFunctions.py] *)

Definition NO_BMS : nat := 3.
Definition addresses : list Z := [0xad; 0xbc; 0xde].
Definition BMS_COMMAND_LEN : nat := 8.
Definition BM_RESPONSE_LEN : nat := 14.
Definition Ess_current : Z := 285.

Definition HEAD : Z := 0x58.
Definition GLOBAL_ADDR : Z := 0xff.
Definition DEFAULT_ADDR : Z := 0xfe.

Definition CMD_TRIGGER : Z := 0x32.
Definition CMD_SET_ADDRESS : Z := 0x3c.
Definition CMD_AUTOADDR_DONE : Z := 0x41.
Definition CMD_GLOBAL_SNAPSHOT : Z := 0x46.
Definition CMD_SEND_SUMMARY : Z := 0x50.
Definition CMD_SEND_ALL_VOLTAGES_1 : Z := 0xa0.
Definition CMD_SEND_ALL_VOLTAGES_2 : Z := 0xa1.
Definition CMD_SEND_ALL_VOLTAGES_3 : Z := 0xa2.
Definition CMD_BALANCE_TARGET : Z := 0xaa.
Definition CMD_SUSI : Z := 0xfb.

(** [trigger_in.off()]: the line is active low, this activates the BM. *)
Definition assertTrigger : M unit := emit (TriggerIn false).

(** [trigger_in.on()] *)
Definition deassertTrigger : M unit := emit (TriggerIn true).

(** The audible cue before a transaction: [buzzer.on(); buzzer.off()]. *)
Definition beep : M unit := emit (Buzzer true) ;; emit (Buzzer false).

Section Driver.

(** [crc8.crcCalcCRC8], imported as [getCRC]: returns an unsigned byte. *)
Variable getCRC : list Z -> Z -> byte.

(** The module's mode flag [simulate]; the file sets it to [False]. *)
Variable simulate : bool.

(** The integer [getCRC(data, n)] evaluates to. *)
Definition crc (data : list Z) (n : Z) : Z := Z_of_byte (getCRC data n).

(** [frame[7] = getCRC(frame, 7)]; index 7 is the last of the 8 items of
    every command frame, and the value stored is a byte. *)
Definition seal (frame : list Z) : list Z := <[7%nat := crc frame 7]> frame.

(** The body of [for i in range(NO_BMS)] in [assignAddresses]; the state
    is the pair of lists [global_set_addr_cmd], [trigger_cmd], which the
    loop updates in place.  [i] stays below [len(addresses)]. *)
Definition assignStep (i : nat) (st : list Z * list Z) : M (list Z * list Z) :=
  let '(global_set_addr_cmd, trigger_cmd) := st in
  if (i =? 0)%nat then
    assertTrigger ;;
    let global_set_addr_cmd := <[3%nat := item addresses i]> global_set_addr_cmd in
    let global_set_addr_cmd := seal global_set_addr_cmd in
    let trigger_cmd := <[1%nat := item addresses i]> trigger_cmd in
    let trigger_cmd := seal trigger_cmd in
    write global_set_addr_cmd ;;
    write trigger_cmd ;;
    deassertTrigger ;;
    ret (global_set_addr_cmd, trigger_cmd)
  else
    let global_set_addr_cmd := <[3%nat := item addresses i]> global_set_addr_cmd in
    let global_set_addr_cmd := seal global_set_addr_cmd in
    let trigger_cmd := <[1%nat := item addresses i]> trigger_cmd in
    let trigger_cmd := seal trigger_cmd in
    write global_set_addr_cmd ;;
    write trigger_cmd ;;
    let trigger_cmd := <[1%nat := item addresses (i - 1)]> trigger_cmd in
    let trigger_cmd := seal trigger_cmd in
    write trigger_cmd ;;
    ret (global_set_addr_cmd, trigger_cmd).

Definition assignAddresses : M unit :=
  if simulate then
    ret tt
  else
    let auto_addr_done_cmd :=
      seal [HEAD; GLOBAL_ADDR; CMD_AUTOADDR_DONE; 0; 0; 0; 0; 0] in
    let trigger_cmd := [HEAD; DEFAULT_ADDR; CMD_TRIGGER; 0; 0; 0; 0; 0] in
    let global_set_addr_cmd :=
      [HEAD; GLOBAL_ADDR; CMD_SET_ADDRESS; DEFAULT_ADDR; 0; 0; 2; 0] in
    beep ;;
    reset_input_buffer ;;
    forM (range 0 NO_BMS) assignStep (global_set_addr_cmd, trigger_cmd) ;;
    write auto_addr_done_cmd ;;
    ret tt.

Definition globalSnapshot (Ess_curr : Z) : M unit :=
  let lsb_byte := Z.land Ess_curr 0xff in
  let msb_byte := Z.land (Z.shiftr Ess_curr 8) 0xff in
  let global_snapshot :=
    seal [HEAD; GLOBAL_ADDR; CMD_GLOBAL_SNAPSHOT; 0; lsb_byte; msb_byte; 0; 0xFF] in
  write global_snapshot ;;
  ret tt.

(** [len(buf) == BM_RESPONSE_LEN and getCRC(buf, BM_RESPONSE_LEN) == 0] *)
Definition validResponse (buf : list Z) : bool :=
  (length buf =? BM_RESPONSE_LEN)%nat && (crc buf (Z.of_nat BM_RESPONSE_LEN) =? 0).

(** [cellVoltages = [cellA, cellB, cellC, cellD]], the same text in both
    branches of [pollForVoltages]. *)
Definition cellVoltages (buf : list Z) : list Z :=
  let cellA := Z.land (item buf 3) 0xff in
  let cellA := Z.lor (Z.shiftl cellA 8) (item buf 2) in
  let cellB := Z.land (item buf 5) 0xff in
  let cellB := Z.lor (Z.shiftl cellB 8) (item buf 4) in
  let cellC := Z.land (item buf 7) 0xff in
  let cellC := Z.lor (Z.shiftl cellC 8) (item buf 6) in
  let cellD := Z.land (item buf 9) 0xff in
  let cellD := Z.lor (Z.shiftl cellD 8) (item buf 8) in
  [cellA; cellB; cellC; cellD].

(** [for k in range(4): allVoltages[j*4+k] = cellVoltages[k]] *)
Definition storeCells (j : nat) (cells allVoltages : list Z) : list Z :=
  fold_left (fun all k => <[(j * 4 + k)%nat := wrap16 (item cells k)]> all)
            (range 0 4) allVoltages.

(** [for k in range(4): allVoltages[j*4+k] = cellVoltages[k] + 1] *)
Definition storeCellsSimulated (j : nat) (cells allVoltages : list Z) : list Z :=
  fold_left (fun all k => <[(j * 4 + k)%nat := wrap16 (item cells k + 1)]> all)
            (range 0 4) allVoltages.

(** The body of [for j in range(3)] on the device; the state is
    [send_voltage] and [allVoltages]. *)
Definition pollStep (j : nat) (st : list Z * list Z) : M (list Z * list Z) :=
  let '(send_voltage, allVoltages) := st in
  let send_voltage :=
    <[2%nat := CMD_SEND_ALL_VOLTAGES_1 + Z.of_nat j]> send_voltage in
  let send_voltage := seal send_voltage in
  reset_input_buffer ;;
  write send_voltage ;;
  let* bm_response_buffer := read BM_RESPONSE_LEN in
  if validResponse bm_response_buffer then
    ret (send_voltage, storeCells j (cellVoltages bm_response_buffer) allVoltages)
  else
    ret (send_voltage, allVoltages).

(** Filling [buf[i]] for [i] in a range with random draws: an even index
    draws from [0, even_max], an odd one from [0, odd_max]. *)
Definition fillRandom (even_max odd_max : Z) (i : nat) (buf : list Z) : M (list Z) :=
  let* r := randint 0 (if Nat.even i then even_max else odd_max) in
  ret (<[i := r]> buf).

(** The mock response of the simulated [pollForVoltages]. *)
Definition mockVoltages (address : Z) (bm_response_buffer : list Z) : M (list Z) :=
  let buf := <[0%nat := HEAD]> bm_response_buffer in
  let buf := <[1%nat := address]> buf in
  let* buf := forM (range 2 8) (fillRandom 255 15) buf in
  let buf := fold_left (fun b i => <[i := 0]> b) (range 10 4) buf in
  ret (<[13%nat := crc buf 13]> buf).

(** The body of [for j in range(3)] when simulating; the state is
    [bm_response_buffer] and [allVoltages]. *)
Definition pollStepSimulated (address : Z) (j : nat) (st : list Z * list Z)
  : M (list Z * list Z) :=
  let '(bm_response_buffer, allVoltages) := st in
  let* bm_response_buffer := mockVoltages address bm_response_buffer in
  if validResponse bm_response_buffer then
    ret (bm_response_buffer,
         storeCellsSimulated j (cellVoltages bm_response_buffer) allVoltages)
  else
    ret (bm_response_buffer, allVoltages).

Definition pollForVoltages (address : Z) : M (list Z) :=
  let bm_response_buffer := replicate BM_RESPONSE_LEN 0 in
  let allVoltages := replicate 12 0 in
  let* send_voltage :=
    bytearray [HEAD; address; CMD_SEND_ALL_VOLTAGES_1; 0; 0; 0; 0; 0xFF] in
  if negb simulate then
    globalSnapshot Ess_current ;;
    let* st := forM (range 0 3) pollStep (send_voltage, allVoltages) in
    ret (snd st)
  else
    let* st := forM (range 0 3) (pollStepSimulated address)
                    (bm_response_buffer, allVoltages) in
    ret (snd st).

(** The frame [balance_target] with its CRC in place. *)
Definition balanceTargetFrame (addr target : Z) : M (list Z) :=
  let tg := target - 1 in
  let lsb_byte := Z.land tg 0xff in
  let msb_byte := Z.land (Z.shiftr tg 8) 0xff in
  let* balance_target :=
    bytearray [HEAD; addr; CMD_BALANCE_TARGET; 0; lsb_byte; msb_byte; 0; 0xFF] in
  ret (seal balance_target).

Definition balanceTarget (addr target : Z) : M bool :=
  beep ;;
  let* balance_target := balanceTargetFrame addr target in
  if negb simulate then
    reset_input_buffer ;;
    write balance_target ;;
    let* replied :=
      (if negb (addr =? 0xff)
       then let* waiting := inWaiting in ret (waiting =? 14)
       else ret false) in
    if replied then ret true
    else if addr =? 0xff then ret true
    else ret false
  else
    ret true.

Definition resetTarget (addr : Z) : M bool :=
  balanceTarget addr 4096.

(** [summary = [minV, minVLoc, maxV, maxVLoc, avgV, temp1, temp2, status]],
    the same text in both branches of [sendSummary]. *)
Definition summaryFields (buf : list Z) : list Z :=
  let minV := Z.land (item buf 3) 0xff in
  let minV := Z.lor (Z.shiftl minV 8) (Z.land (item buf 2) 0xff) in
  let maxV := Z.land (item buf 5) 0xff in
  let maxV := Z.lor (Z.shiftl maxV 8) (Z.land (item buf 4) 0xff) in
  let avgV := Z.land (item buf 7) 0xff in
  let avgV := Z.lor (Z.shiftl avgV 8) (Z.land (item buf 6) 0xff) in
  let minVLoc := Z.land (item buf 8) 0xf in
  let maxVLoc := Z.land (Z.shiftr (item buf 8) 4) 0xf in
  let temp1 := Z.land (item buf 10) 0xf in
  let temp1 := Z.lor (Z.shiftl temp1 8) (Z.land (item buf 9) 0xff) in
  let temp2 := Z.land (item buf 11) 0xff in
  let temp2 := Z.lor (Z.shiftl temp2 4) (Z.shiftr (item buf 10) 4) in
  let status := item buf 12 in
  [minV; minVLoc; maxV; maxVLoc; avgV; temp1; temp2; status].

(** The mock response of the simulated [sendSummary]. *)
Definition mockSummary (addr : Z) (bm_response_buffer : list Z) : M (list Z) :=
  let buf := <[0%nat := HEAD]> bm_response_buffer in
  let buf := <[1%nat := addr]> buf in
  let* buf := forM (range 2 6) (fillRandom 255 15) buf in
  let* r := randint 0 0xbb in
  let buf := <[8%nat := r]> buf in
  let* buf := forM (range 9 3) (fillRandom 255 255) buf in
  let* r := randint 0 7 in
  let buf := <[12%nat := r]> buf in
  ret (<[13%nat := crc buf 13]> buf).

Definition sendSummary (addr Ess_curr : Z) : M (list Z) :=
  beep ;;
  let lsb_byte := Z.land Ess_curr 0xff in
  let msb_byte := Z.land (Z.shiftr Ess_curr 8) 0xff in
  let* send_summary :=
    bytearray [HEAD; addr; CMD_SEND_SUMMARY; 0; lsb_byte; msb_byte; 0; 0xFF] in
  let send_summary := seal send_summary in
  let bm_response_buffer := replicate BM_RESPONSE_LEN 0 in
  let summary := replicate 8 0 in
  if negb simulate then
    reset_input_buffer ;;
    write send_summary ;;
    let* bm_response_buffer := read BM_RESPONSE_LEN in
    if validResponse bm_response_buffer then
      ret (summaryFields bm_response_buffer)
    else
      ret summary
  else
    let* bm_response_buffer := mockSummary addr bm_response_buffer in
    if validResponse bm_response_buffer then
      ret (summaryFields bm_response_buffer)
    else
      ret summary.

(** ** [controlModule.py] *)

(** [battery_voltages = np.zeros([NO_BMS, 12], dtype = np.uint16)] *)
Definition battery_voltages_init : list (list Z) :=
  replicate NO_BMS (replicate 12 0).

(** The body of [for i in range(len(addresses))]; the state is
    [battery_voltages], whose row [i] takes the poll's result. *)
Definition pollBoard (i : nat) (battery_voltages : list (list Z))
  : M (list (list Z)) :=
  let* volt := pollForVoltages (item addresses i) in
  let battery_voltages := <[i := volt]> battery_voltages in
  sendSummary (item addresses i) Ess_current ;;
  ret battery_voltages.

(** One pass of the body of [while True] whose 55 seconds have elapsed. *)
Definition pollCycle (battery_voltages : list (list Z)) : M (list (list Z)) :=
  beep ;;
  forM (range 0 (length addresses)) pollBoard battery_voltages.

(** The first [cycles] passes of the polling loop. *)
Fixpoint pollLoop (cycles : nat) (battery_voltages : list (list Z))
  : M (list (list Z)) :=
  match cycles with
  | O => ret battery_voltages
  | S n =>
      let* battery_voltages := pollCycle battery_voltages in
      pollLoop n battery_voltages
  end.

(** The script, cut after [cycles] passes of its endless loop; the file
    sets [addressAssigned] to [True]. *)
Definition controlModule (addressAssigned : bool) (cycles : nat)
  : M (list (list Z)) :=
  (if negb addressAssigned then assignAddresses else ret tt) ;;
  pollLoop cycles battery_voltages_init.

End Driver.

(** ** Observations used in the statements *)

(** A run that returns [a]. *)
Definition returns {A : Type} (r : result (A * World)) (a : A) : Prop :=
  exists w', r = Ok (a, w').

(** The response the driver reads after its [k]-th write from [w] on
    (counting from 0), when it clears the input buffer before that write:
    the first 14 bytes of what the bus delivers. *)
Definition reply (w : World) (k : nat) : list Z :=
  map Z_of_byte (take BM_RESPONSE_LEN (nth k (line w) [])).

(** The frames a computation writes when run from [w]. *)
Definition written {A : Type} (c : M A) (w : World) : list (list Z) :=
  match c w with
  | Ok (_, w') => drop (length (writes (trace w))) (writes (trace w'))
  | Raise _ => []
  end.

(** The four cells of group [j] in a 12-cell result. *)
Definition group (j : nat) (allVoltages : list Z) : list Z :=
  take 4 (drop (4 * j) allVoltages).

(** The low and the high four bits of a byte. *)
Definition low_nibble (b : Z) : Z := b mod 16.
Definition high_nibble (b : Z) : Z := b / 16.

(** Command code, address byte and first payload byte of a command
    frame. *)
Definition header (f : list Z) : Z * Z * Z := (item f 2, item f 1, item f 3).

Definition is_command (cmd : Z) (f : list Z) : bool := item f 2 =? cmd.

(** A world in which the bus stays silent. *)
Definition silent : World := mkWorld [] [] [] [].

(** A member of the CRC-8 family to run the driver with: polynomial 0x07,
    zero start, most significant bit first. *)
Definition crc8_07 : list Z -> Z -> byte := CRC8.crcCalcCRC8 0x07 0 false.

(** A 14-byte response: 13 bytes and their checksum under [crc8_07]. *)
Definition response (body : list Z) : list byte :=
  map byte_of_Z (body ++ [Z_of_byte (crc8_07 body 13)]).

(** The response of a board to one voltage request: four cells, low
    byte first. *)
Definition voltage_response (addr : Z) (cells : list Z) : list byte :=
  response ([HEAD; addr] ++ flat_map (fun v => [v mod 256; v / 256]) cells
            ++ [0; 0; 0]).

(** A bus on which board 0xAD answers one poll cycle with the voltages
    100, 200, ..., 1200 mV and nothing is heard after that. *)
Definition one_good_poll : World :=
  mkWorld []
    [ []; voltage_response 0xad [100; 200; 300; 400];
      voltage_response 0xad [500; 600; 700; 800];
      voltage_response 0xad [900; 1000; 1100; 1200] ]
    [] [].

(** A bus that answers the next write with the summary of the
    specification's example: minimum 3000 mV at cell 3, maximum 3500 mV
    at cell 9, average 3250 mV, temperatures 250 and 300, status 0b101. *)
Definition summary_example : World :=
  mkWorld []
    [ response [0x58; 0xad; 184; 11; 172; 13; 178; 12; 0x93; 250; 0xC0; 18; 5] ]
    [] [].

Section Frames.
Variable getCRC : list Z -> Z -> byte.

(** A received buffer passes validation: 14 bytes whose CRC-8 over all
    14 is zero. *)
Definition passes (buf : list Z) : Prop :=
  length buf = 14%nat /\ crc getCRC buf 14 = 0.

(** The frame [balanceTarget] sends for a byte-sized [addr]. *)
Definition balance_frame (addr target : Z) : list Z :=
  seal getCRC [HEAD; addr; CMD_BALANCE_TARGET; 0; Z.land (target - 1) 0xff;
               Z.land (Z.shiftr (target - 1) 8) 0xff; 0; 0xFF].

(** The frames of the addressing sequence, in the order written: the
    two command lists are updated and sealed again from board to board. *)
Definition addressing_frames : list (list Z) :=
  let set0 := seal getCRC (<[3%nat := 0xad]>
                [HEAD; GLOBAL_ADDR; CMD_SET_ADDRESS; DEFAULT_ADDR; 0; 0; 2; 0]) in
  let trig0 := seal getCRC (<[1%nat := 0xad]>
                [HEAD; DEFAULT_ADDR; CMD_TRIGGER; 0; 0; 0; 0; 0]) in
  let set1 := seal getCRC (<[3%nat := 0xbc]> set0) in
  let trig1 := seal getCRC (<[1%nat := 0xbc]> trig0) in
  let back1 := seal getCRC (<[1%nat := 0xad]> trig1) in
  let set2 := seal getCRC (<[3%nat := 0xde]> set1) in
  let trig2 := seal getCRC (<[1%nat := 0xde]> back1) in
  let back2 := seal getCRC (<[1%nat := 0xbc]> trig2) in
  let done := seal getCRC [HEAD; GLOBAL_ADDR; CMD_AUTOADDR_DONE; 0; 0; 0; 0; 0] in
  [set0; trig0; set1; trig1; back1; set2; trig2; back2; done].

(** The four frames [pollForVoltages] sends to a byte-sized [address]:
    the snapshot broadcast, then the three voltage requests, each built
    from the one before. *)
Definition snapshot_frame (Ess_curr : Z) : list Z :=
  seal getCRC [HEAD; GLOBAL_ADDR; CMD_GLOBAL_SNAPSHOT; 0; Z.land Ess_curr 0xff;
               Z.land (Z.shiftr Ess_curr 8) 0xff; 0; 0xFF].

Definition voltage_frames (address : Z) : list (list Z) :=
  let v1 := seal getCRC (<[2%nat := CMD_SEND_ALL_VOLTAGES_1 + 0]>
              [HEAD; address; CMD_SEND_ALL_VOLTAGES_1; 0; 0; 0; 0; 0xFF]) in
  let v2 := seal getCRC (<[2%nat := CMD_SEND_ALL_VOLTAGES_1 + 1]> v1) in
  let v3 := seal getCRC (<[2%nat := CMD_SEND_ALL_VOLTAGES_1 + 2]> v2) in
  [v1; v2; v3].

(** The frame [sendSummary] sends to a byte-sized [addr]. *)
Definition summary_frame (addr Ess_curr : Z) : list Z :=
  seal getCRC [HEAD; addr; CMD_SEND_SUMMARY; 0; Z.land Ess_curr 0xff;
               Z.land (Z.shiftr Ess_curr 8) 0xff; 0; 0xFF].

(** What one pass of the device loop of [pollForVoltages] leaves in
    [allVoltages] when it read [buf] for group [j]. *)
Definition gate (buf : list Z) (j : nat) (allVoltages : list Z) : list Z :=
  if validResponse getCRC buf
  then storeCells j (cellVoltages buf) allVoltages
  else allVoltages.

(** The result of [pollForVoltages] on the device, from the three
    responses read. *)
Definition polled (b0 b1 b2 : list Z) : list Z :=
  gate b2 2 (gate b1 1 (gate b0 0 (replicate 12 0))).

(** The counterparts when simulating. *)
Definition gateSimulated (buf : list Z) (j : nat) (allVoltages : list Z) : list Z :=
  if validResponse getCRC buf
  then storeCellsSimulated j (cellVoltages buf) allVoltages
  else allVoltages.

Definition polledSimulated (b0 b1 b2 : list Z) : list Z :=
  gateSimulated b2 2 (gateSimulated b1 1 (gateSimulated b0 0 (replicate 12 0))).

(** The three mock responses the simulated [pollForVoltages] builds from
    the draws of [w], one after the other in the same buffer. *)
Definition mock_frames (address : Z) (w : World) : list (list Z) :=
  match mockVoltages getCRC address (replicate BM_RESPONSE_LEN 0) w with
  | Ok (f0, w0) =>
      match mockVoltages getCRC address f0 w0 with
      | Ok (f1, w1) =>
          match mockVoltages getCRC address f1 w1 with
          | Ok (f2, _) => [f0; f1; f2]
          | Raise _ => []
          end
      | Raise _ => []
      end
  | Raise _ => []
  end.

(** What a poll cycle run from [w] stores for board [i]: the board's
    three voltage responses are those to writes [5i+1 .. 5i+3] (each
    board takes five writes: snapshot, three requests, summary). *)
Definition polled_board (w : World) (i : nat) : list Z :=
  polled (reply w (5 * i + 1)) (reply w (5 * i + 2)) (reply w (5 * i + 3)).

(** C8 as the specification words it: a response of board [i] that
    fails validation leaves the stored values of that board unchanged. *)
Definition failed_frame_keeps_stored (battery_voltages : list (list Z))
    (w : World) : Prop :=
  forall i j, (i < 3)%nat -> (j < 3)%nat ->
    ~ passes (reply w (5 * i + 1 + j)) ->
    forall battery_voltages' w',
      pollCycle getCRC false battery_voltages w = Ok (battery_voltages', w') ->
      nth i battery_voltages' [] = nth i battery_voltages [].

(** An 8-byte frame whose last byte was set by [seal]. *)
Definition sealed (f : list Z) : Prop :=
  exists l, length l = 8%nat /\ f = seal getCRC l.

(** C4 as the specification words it: every [SET_ADDRESS] frame that
    [assignAddresses] writes is addressed to [DEFAULT_ADDR]. *)
Definition set_address_to_default (w : World) : Prop :=
  forall f, In f (written (assignAddresses getCRC false) w) ->
            item f 2 = CMD_SET_ADDRESS -> item f 1 = DEFAULT_ADDR.

End Frames.

(** A simulation with some draws to come, and a device bus that answers
    the three voltage requests with the mock responses of that
    simulation. *)
Definition simulation_example : World :=
  mkWorld [] [] (map (fun n => Z.of_nat n * 37 + 5) (seq 0 24)) [].

Definition device_echo : World :=
  mkWorld []
    ([] :: map (map byte_of_Z) (mock_frames crc8_07 0xad simulation_example))
    [] [].


(** ** Further observations *)

(** A 16-bit value split into bytes the way the driver does it
    ([lsb_byte], [msb_byte]). *)
Definition lsb (v : Z) : Z := Z.land v 0xff.
Definition msb (v : Z) : Z := Z.land (Z.shiftr v 8) 0xff.

(** The exclusive upper bounds of the eight summary fields: three
    16-bit voltages, two 4-bit cell indices, two 12-bit temperatures and
    the status byte. *)
Definition summary_bounds : list Z :=
  [65536; 16; 65536; 16; 65536; 4096; 4096; 256].

(** The level of the controller's trigger line at each write of a trace,
    starting from level [lvl] ([false] is low, which activates the first
    BM), and the level the trace leaves. *)
Fixpoint trigger_at_writes (lvl : bool) (t : list event) : list bool :=
  match t with
  | [] => []
  | SerialWrite _ :: rest => lvl :: trigger_at_writes lvl rest
  | TriggerIn on :: rest => trigger_at_writes on rest
  | Buzzer _ :: rest => trigger_at_writes lvl rest
  end.

Fixpoint trigger_after (lvl : bool) (t : list event) : bool :=
  match t with
  | [] => lvl
  | TriggerIn on :: rest => trigger_after on rest
  | _ :: rest => trigger_after lvl rest
  end.

Section MoreFrames.
Variable getCRC : list Z -> Z -> byte.

(** The five frames one board costs in a poll cycle. *)
Definition board_frames (address : Z) : list (list Z) :=
  snapshot_frame getCRC Ess_current :: voltage_frames getCRC address
  ++ [summary_frame getCRC address Ess_current].

(** The fifteen frames of a poll cycle. *)
Definition cycle_frames : list (list Z) := flat_map board_frames addresses.

(** A command frame built from scratch. *)
Definition fresh_frame (addr cmd p0 p1 p2 p3 : Z) : list Z :=
  seal getCRC [HEAD; addr; cmd; p0; p1; p2; p3; 0].

(** [getCRC(data, n)] looks at the first [n] items of [data] only. *)
Definition reads_prefix : Prop :=
  forall data data' n,
    take (Z.to_nat n) data = take (Z.to_nat n) data' ->
    getCRC data n = getCRC data' n.

End MoreFrames.

(** A table of stored voltages as [controlModule] keeps it: one row of
    twelve 16-bit cells for each of the three boards. *)
Definition stored_ok (battery_voltages : list (list Z)) : Prop :=
  length battery_voltages = 3%nat /\
  Forall (fun row => length row = 12%nat /\ Forall (fun v => 0 <= v < 65536) row)
         battery_voltages.

(** ** The model at work *)

(** The check values of two members of the family over "123456789":
    CRC-8 (polynomial 0x07) and CRC-8/MAXIM (reflected, 0x8C). *)
Example crc8_check_value :
  CRC8.checksum 0x07 0 false [49; 50; 51; 52; 53; 54; 55; 56; 57] 9 = 0xF4.
Proof. reflexivity. Qed.

Example crc8_maxim_check_value :
  CRC8.checksum 0x8C 0 true [49; 50; 51; 52; 53; 54; 55; 56; 57] 9 = 0xA1.
Proof. reflexivity. Qed.

(** One good poll returns the twelve voltages in order. *)
Example poll_round_trip :
  returns (pollForVoltages crc8_07 false 0xad one_good_poll)
          [100; 200; 300; 400; 500; 600; 700; 800; 900; 1000; 1100; 1200].
Proof. eexists. vm_compute. reflexivity. Qed.

(** An address that is no byte stops [pollForVoltages] before anything is
    sent. *)
Example poll_bad_address :
  pollForVoltages crc8_07 false 0x1ad silent = Raise ValueError.
Proof. reflexivity. Qed.

(** When simulating, [balanceTarget] acknowledges without sending. *)
Example balance_simulated :
  balanceTarget crc8_07 true 0xad 3300 silent =
  Ok (true, mkWorld [] [] [] [Buzzer true; Buzzer false]).
Proof. reflexivity. Qed.

(** [resetTarget] sends 4095 = 0x0FFF. *)
Example reset_target_frame :
  written (resetTarget crc8_07 false 0xad) silent =
  [[0x58; 0xad; 0xaa; 0; 0xFF; 0x0F; 0; 0xAF]].
Proof. vm_compute. reflexivity. Qed.

(** The script with addresses already assigned: after its first cycle on
    the bus of [one_good_poll] only board 0 has voltages stored. *)
Example control_module_first_cycle :
  returns (controlModule crc8_07 false true 1 one_good_poll)
    [ [100; 200; 300; 400; 500; 600; 700; 800; 900; 1000; 1100; 1200];
      replicate 12 0; replicate 12 0 ].
Proof. eexists. vm_compute. reflexivity. Qed.

(** * Proofs *)

(** ** Bytes and bit fields *)

Lemma Z_of_byte_range (b : byte) : 0 <= Z_of_byte b < 256.
Proof.
  unfold Z_of_byte. pose proof (Byte.to_N_bounded b). lia.
Qed.

Lemma is_byte_true (z : Z) : is_byte z = true <-> 0 <= z < 256.
Proof. unfold is_byte. rewrite andb_true_iff, Z.leb_le, Z.ltb_lt. tauto. Qed.

Lemma is_byte_Z_of_byte (b : byte) : is_byte (Z_of_byte b) = true.
Proof. apply is_byte_true, Z_of_byte_range. Qed.

Lemma Z_of_byte_of_Z (z : Z) : 0 <= z < 256 -> Z_of_byte (byte_of_Z z) = z.
Proof.
  intros Hz. unfold Z_of_byte, byte_of_Z.
  destruct (Byte.of_N (Z.to_N z)) as [b|] eqn:E.
  - apply Byte.to_of_N in E. simpl. rewrite E. lia.
  - apply Byte.of_N_None_iff in E. lia.
Qed.

Lemma item_bytes_range (l : list byte) (i : nat) :
  0 <= item (map Z_of_byte l) i < 256.
Proof.
  unfold item. destruct (nth_in_or_default i (map Z_of_byte l) 0) as [Hin | ->]; [|lia].
  apply in_map_iff in Hin as (b & <- & _). apply Z_of_byte_range.
Qed.

Lemma land_byte (z : Z) : 0 <= z < 256 -> Z.land z 0xff = z.
Proof.
  intros Hz. change 0xff with (Z.ones 8). rewrite Z.land_ones by lia.
  apply Z.mod_small. lia.
Qed.

Lemma is_byte_land (z : Z) : is_byte (Z.land z 0xff) = true.
Proof.
  apply is_byte_true. change 0xff with (Z.ones 8). rewrite Z.land_ones by lia.
  apply Z.mod_pos_bound. lia.
Qed.

Lemma lor_shiftl_low (hi lo n : Z) :
  0 <= n -> 0 <= lo < 2 ^ n -> Z.lor (Z.shiftl hi n) lo = hi * 2 ^ n + lo.
Proof.
  intros Hn Hlo. rewrite Z.shiftl_mul_pow2 by lia.
  assert (Hdisj : Z.land (hi * 2 ^ n) lo = 0).
  { apply Z.bits_inj'. intros m Hm. rewrite Z.land_spec, Z.bits_0.
    destruct (Z.lt_ge_cases m n) as [Hlt | Hge].
    - rewrite Z.mul_pow2_bits_low by lia. reflexivity.
    - rewrite <- (Z.mod_small lo (2 ^ n)) by lia.
      rewrite Z.mod_pow2_bits_high by lia. apply andb_false_r. }
  rewrite <- Z.lxor_lor, <- Z.add_nocarry_lxor by assumption. reflexivity.
Qed.

(** A little-endian pair of bytes, as the driver assembles it. *)
Lemma le16_value (lo hi : Z) :
  0 <= lo < 256 -> 0 <= hi < 256 ->
  Z.lor (Z.shiftl (Z.land hi 0xff) 8) lo = hi * 256 + lo.
Proof.
  intros Hlo Hhi. rewrite land_byte by assumption.
  rewrite lor_shiftl_low by lia. reflexivity.
Qed.

Lemma wrap16_small (z : Z) : 0 <= z < 65536 -> wrap16 z = z.
Proof. intros Hz. unfold wrap16. apply Z.mod_small. assumption. Qed.

(** ** Running the monad *)

Lemma bytearray_ok (items : list Z) (w : World) :
  forallb is_byte items = true -> bytearray items w = Ok (items, w).
Proof. intros H. unfold bytearray. rewrite H. reflexivity. Qed.

Lemma writes_app (t1 t2 : list event) : writes (t1 ++ t2) = writes t1 ++ writes t2.
Proof. apply omap_app. Qed.

Lemma written_trace {A : Type} (c : M A) (w w' : World) (a : A) (evs : list event) :
  c w = Ok (a, w') -> trace w' = trace w ++ evs -> written c w = writes evs.
Proof.
  intros Hc Ht. unfold written. rewrite Hc, Ht, writes_app.
  apply drop_app_length.
Qed.

(** ** The driver on the device

    In the sections below [getCRC] is any function into bytes. *)

Section DriverFacts.
Variable getCRC : list Z -> Z -> byte.

Lemma crc_range data n : 0 <= crc getCRC data n < 256.
Proof. apply Z_of_byte_range. Qed.

(** *** [balanceTarget] *)

Lemma balanceTargetFrame_ok addr target w :
  is_byte addr = true ->
  balanceTargetFrame getCRC addr target w = Ok (balance_frame getCRC addr target, w).
Proof.
  intros Ha. unfold balanceTargetFrame, bind.
  rewrite bytearray_ok; [reflexivity|].
  cbn [forallb]. rewrite Ha, !is_byte_land. reflexivity.
Qed.

Lemma balanceTarget_real addr target w :
  is_byte addr = true ->
  balanceTarget getCRC false addr target w =
  Ok ((addr =? 0xff) || (Z.of_nat (length (hd [] (line w))) =? 14),
      mkWorld (hd [] (line w)) (tl (line w)) (draws w)
              (trace w ++ [Buzzer true; Buzzer false;
                           SerialWrite (balance_frame getCRC addr target)])).
Proof.
  intros Ha. unfold balanceTarget, bind, beep, bind, emit.
  cbn [trace rx line draws].
  rewrite balanceTargetFrame_ok by assumption.
  cbn [negb reset_input_buffer write inWaiting ret bind trace rx line draws app].
  rewrite <- !app_assoc. cbn [app].
  destruct (addr =? 255); cbn [negb ret rx orb];
    [reflexivity | destruct (_ =? 14); reflexivity].
Qed.

Lemma balance_frame_items addr target :
  item (balance_frame getCRC addr target) 4 = Z.land (target - 1) 0xff /\
  item (balance_frame getCRC addr target) 5 = Z.land (Z.shiftr (target - 1) 8) 0xff.
Proof. split; reflexivity. Qed.

(** C6: for every byte-sized address and every target of at least 1 the
    frame [balanceTarget] builds, and sends, carries [target - 1] little
    endian: byte 4 is [(target - 1) & 0xFF], byte 5 is
    [((target - 1) >> 8) & 0xFF]; up to 65536 the two bytes are the
    16-bit value [target - 1], which for 3300 is 3299. *)
Theorem C6_balance_target_payload (addr target : Z) (w : World) :
  0 <= addr < 256 -> 1 <= target ->
  exists f,
    balanceTargetFrame getCRC addr target w = Ok (f, w) /\
    written (balanceTarget getCRC false addr target) w = [f] /\
    item f 4 = Z.land (target - 1) 0xFF /\
    item f 5 = Z.land (Z.shiftr (target - 1) 8) 0xFF /\
    (target <= 65536 -> Z.lor (item f 4) (Z.shiftl (item f 5) 8) = target - 1) /\
    (target = 3300 -> item f 4 = 227 /\ item f 5 = 12).
Proof.
  intros Ha Ht. apply is_byte_true in Ha.
  exists (balance_frame getCRC addr target).
  destruct (balance_frame_items addr target) as [H4 H5].
  split; [apply balanceTargetFrame_ok; assumption|].
  split.
  { rewrite (written_trace _ _ _ _ _ (balanceTarget_real addr target w Ha) eq_refl).
    reflexivity. }
  rewrite H4, H5. repeat split.
  - intros Hmax. change 0xFF with (Z.ones 8).
    rewrite !Z.land_ones, Z.shiftr_div_pow2 by lia.
    rewrite Z.lor_comm, lor_shiftl_low by (try apply Z.mod_pos_bound; lia).
    change (2 ^ 8) with 256.
    rewrite (Z.mod_small ((target - 1) / 256)) by
      (split; [apply Z.div_pos | apply Z.div_lt_upper_bound]; lia).
    pose proof (Z.div_mod (target - 1) 256). lia.
  - subst target. reflexivity.
  - subst target. reflexivity.
Qed.

Lemma balanceTarget_simulated addr target w :
  is_byte addr = true ->
  balanceTarget getCRC true addr target w =
  Ok (true, mkWorld (rx w) (line w) (draws w)
                    (trace w ++ [Buzzer true; Buzzer false])).
Proof.
  intros Ha. unfold balanceTarget, bind, beep, bind, emit.
  cbn [trace rx line draws].
  rewrite balanceTargetFrame_ok by assumption.
  cbn [negb ret]. rewrite <- !app_assoc. reflexivity.
Qed.

(** C7: a broadcast [balanceTarget] (address 0xFF) returns [True] whatever
    the port holds, in either mode; on the device a targeted one returns
    [True] exactly when 14 bytes wait in the input buffer after the send
    (the buffer is not touched after the test, so it is the buffer of the
    final state, and it holds what the bus delivered in answer to the
    frame); [resetTarget(addr)] is [balanceTarget(addr, 4096)]. *)
Theorem C7_balance_acknowledgment (addr target : Z) (w : World) :
  0 <= addr < 256 ->
  exists ack w',
    balanceTarget getCRC false addr target w = Ok (ack, w') /\
    (addr = GLOBAL_ADDR -> ack = true) /\
    (addr <> GLOBAL_ADDR -> (ack = true <-> length (rx w') = 14%nat)) /\
    rx w' = hd [] (line w) /\
    (forall simulate t w0,
        returns (balanceTarget getCRC simulate GLOBAL_ADDR t w0) true) /\
    (forall simulate a w0,
        resetTarget getCRC simulate a w0 = balanceTarget getCRC simulate a 4096 w0).
Proof.
  intros Ha. apply is_byte_true in Ha.
  eexists _, _. split; [apply balanceTarget_real; assumption|].
  cbn [rx]. unfold GLOBAL_ADDR. repeat split.
  - intros ->. reflexivity.
  - intros Hack. apply orb_true_iff in Hack as [Heq | Hlen]; [|lia]. lia.
  - intros Hlen. rewrite Hlen. apply orb_true_r.
  - intros [|] t w0; eexists.
    + apply balanceTarget_simulated. reflexivity.
    + rewrite balanceTarget_real by reflexivity. reflexivity.
Qed.

End DriverFacts.

(** *** [assignAddresses] *)

Section Assign.
Variable getCRC : list Z -> Z -> byte.

Lemma assignAddresses_real w :
  exists w',
    assignAddresses getCRC false w = Ok (tt, w') /\
    trace w' = trace w ++
      [Buzzer true; Buzzer false; TriggerIn false] ++
      map SerialWrite (take 2 (addressing_frames getCRC)) ++
      [TriggerIn true] ++
      map SerialWrite (drop 2 (addressing_frames getCRC)).
Proof.
  eexists. split.
  - unfold assignAddresses, beep, assignStep, assertTrigger, deassertTrigger.
    unfold NO_BMS, range.
    cbn [seq forM Nat.eqb bind emit reset_input_buffer write ret
         trace rx line draws Nat.sub].
    reflexivity.
  - cbn [trace]. rewrite <- !app_assoc. reflexivity.
Qed.

Lemma assignAddresses_written w :
  written (assignAddresses getCRC false) w = addressing_frames getCRC.
Proof.
  destruct (assignAddresses_real w) as (w' & Hrun & Htrace).
  rewrite (written_trace _ _ _ _ _ Hrun Htrace). reflexivity.
Qed.

Lemma addressing_frames_headers :
  map header (addressing_frames getCRC) =
    [ (CMD_SET_ADDRESS, GLOBAL_ADDR, 0xAD); (CMD_TRIGGER, 0xAD, 0);
      (CMD_SET_ADDRESS, GLOBAL_ADDR, 0xBC); (CMD_TRIGGER, 0xBC, 0);
      (CMD_TRIGGER, 0xAD, 0);
      (CMD_SET_ADDRESS, GLOBAL_ADDR, 0xDE); (CMD_TRIGGER, 0xDE, 0);
      (CMD_TRIGGER, 0xBC, 0);
      (CMD_AUTOADDR_DONE, GLOBAL_ADDR, 0) ].
Proof. reflexivity. Qed.

(** C4, amended: every [SET_ADDRESS] frame of the addressing sequence,
    board 0's included, has address byte [GLOBAL_ADDR] (0xFF): the new
    address travels in payload byte 3 of a broadcast, and each board's
    address is carried by one such frame. *)
Theorem C4_set_address_is_broadcast (w : World) :
  exists ws,
    written (assignAddresses getCRC false) w = ws /\
    (forall f, In f ws -> item f 2 = CMD_SET_ADDRESS ->
               item f 1 = GLOBAL_ADDR /\ In (item f 3) addresses) /\
    (forall i, (i < NO_BMS)%nat ->
               exists f, In f ws /\ item f 2 = CMD_SET_ADDRESS /\
                         item f 3 = item addresses i).
Proof.
  exists (addressing_frames getCRC).
  split; [apply assignAddresses_written|]. split.
  - intros f Hin Hcmd. cbv zeta delta [addressing_frames] in Hin.
    cbn [In] in Hin.
    repeat (destruct Hin as [<- | Hin];
            [first [discriminate Hcmd
                   | split; [reflexivity | cbn; tauto]] |]).
    contradiction.
  - intros i Hi. unfold NO_BMS in Hi.
    destruct i as [|[|[|i]]]; [ | | | lia].
    + exists (nth 0 (addressing_frames getCRC) []).
      split; [left; reflexivity | split; reflexivity].
    + exists (nth 2 (addressing_frames getCRC) []).
      split; [do 2 right; left; reflexivity | split; reflexivity].
    + exists (nth 5 (addressing_frames getCRC) []).
      split; [do 5 right; left; reflexivity | split; reflexivity].
Qed.

(** C5: over the three boards the sequence sends [SET_ADDRESS] frames
    carrying 0xAD, 0xBC, 0xDE in chain order, each followed by a
    [TRIGGER] frame addressed to the board just named, and exactly one
    [AUTOADDR_DONE] frame: the last frame written, addressed to
    [GLOBAL_ADDR]. *)
Theorem C5_addressing_sequence (w : World) :
  exists w' ws,
    assignAddresses getCRC false w = Ok (tt, w') /\
    written (assignAddresses getCRC false) w = ws /\
    map header ws =
      [ (CMD_SET_ADDRESS, GLOBAL_ADDR, 0xAD); (CMD_TRIGGER, 0xAD, 0);
        (CMD_SET_ADDRESS, GLOBAL_ADDR, 0xBC); (CMD_TRIGGER, 0xBC, 0);
        (CMD_TRIGGER, 0xAD, 0);
        (CMD_SET_ADDRESS, GLOBAL_ADDR, 0xDE); (CMD_TRIGGER, 0xDE, 0);
        (CMD_TRIGGER, 0xBC, 0);
        (CMD_AUTOADDR_DONE, GLOBAL_ADDR, 0) ] /\
    map (fun f => item f 3) (List.filter (is_command CMD_SET_ADDRESS) ws) =
      [0xAD; 0xBC; 0xDE] /\
    length (List.filter (is_command CMD_AUTOADDR_DONE) ws) = 1%nat /\
    exists done, last ws = Some done /\
                 item done 2 = CMD_AUTOADDR_DONE /\ item done 1 = GLOBAL_ADDR.
Proof.
  destruct (assignAddresses_real w) as (w' & Hrun & _).
  exists w', (addressing_frames getCRC).
  split; [assumption|].
  split; [apply assignAddresses_written|].
  split; [apply addressing_frames_headers|].
  split; [reflexivity|]. split; [reflexivity|].
  eexists. split; [reflexivity|]. split; reflexivity.
Qed.

End Assign.

(** C4: the first frame of the sequence is board 0's [SET_ADDRESS] frame,
    and its address byte is 0xFF, not [DEFAULT_ADDR]. *)
Lemma C4_counterexample : ~ set_address_to_default crc8_07 silent.
Proof.
  intros Hclaim.
  specialize (Hclaim [0x58; 0xff; 0x3c; 0xad; 0; 0; 2; 28]).
  assert (Hin : In [0x58; 0xff; 0x3c; 0xad; 0; 0; 2; 28]
                   (written (assignAddresses crc8_07 false) silent)).
  { vm_compute. left. reflexivity. }
  specialize (Hclaim Hin eq_refl). discriminate Hclaim.
Qed.

(** *** [pollForVoltages] on the device *)

Lemma nth_drop_shift {A : Type} (n k : nat) (l : list A) (d : A) :
  nth k (drop n l) d = nth (n + k) l d.
Proof.
  revert l. induction n as [|n IH]; intros l; [reflexivity|].
  destruct l as [|x l]; [destruct k; reflexivity|]. apply IH.
Qed.

Lemma reply_shift (w w' : World) (n k : nat) :
  line w' = drop n (line w) -> reply w' k = reply w (n + k).
Proof. intros H. unfold reply. rewrite H, nth_drop_shift. reflexivity. Qed.

Lemma tl_drop {A : Type} (n : nat) (l : list A) : tl (drop n l) = drop (S n) l.
Proof.
  revert l. induction n as [|n IH]; intros [|x l]; try reflexivity.
  cbn [drop]. apply IH.
Qed.

Lemma hd_drop {A : Type} (n : nat) (l : list A) (d : A) :
  hd d (drop n l) = nth n l d.
Proof.
  rewrite <- (Nat.add_0_r n) at 2. rewrite <- nth_drop_shift.
  destruct (drop n l); reflexivity.
Qed.

Section Poll.
Variable getCRC : list Z -> Z -> byte.

Lemma pollStep_run j send_voltage allVoltages w :
  let sent := seal getCRC
                (<[2%nat := CMD_SEND_ALL_VOLTAGES_1 + Z.of_nat j]> send_voltage) in
  pollStep getCRC j (send_voltage, allVoltages) w =
  Ok ((sent,
       gate getCRC (map Z_of_byte (take BM_RESPONSE_LEN (hd [] (line w))))
            j allVoltages),
      mkWorld (drop BM_RESPONSE_LEN (hd [] (line w))) (tl (line w)) (draws w)
              (trace w ++ [SerialWrite sent])).
Proof.
  unfold pollStep, bind, reset_input_buffer, write, read, gate.
  cbn [rx line draws trace app].
  destruct (validResponse getCRC _); reflexivity.
Qed.

Lemma pollForVoltages_real address w :
  is_byte address = true ->
  exists w',
    pollForVoltages getCRC false address w =
      Ok (polled getCRC (reply w 1) (reply w 2) (reply w 3), w') /\
    line w' = drop 4 (line w) /\
    draws w' = draws w /\
    trace w' = trace w ++
      map SerialWrite (snapshot_frame getCRC Ess_current
                       :: voltage_frames getCRC address).
Proof.
  intros Ha. unfold pollForVoltages, bind.
  rewrite bytearray_ok by (cbn [forallb]; rewrite Ha; reflexivity).
  cbn [negb]. unfold globalSnapshot, bind, write, ret. unfold range.
  cbn [seq forM]. unfold bind.
  rewrite pollStep_run. cbn zeta. rewrite pollStep_run. cbn zeta.
  rewrite pollStep_run. cbn zeta.
  cbn [rx line draws trace snd ret].
  eexists. split; [|split; [|split]].
  - unfold polled, reply. rewrite <- !(hd_drop _ (line w)).
    change (tail (line w)) with (tail (drop 0 (line w))).
    rewrite !tl_drop. reflexivity.
  - reflexivity.
  - reflexivity.
  - cbn [trace]. rewrite <- !app_assoc. reflexivity.
Qed.

Lemma validResponse_passes buf :
  validResponse getCRC buf = true <-> passes getCRC buf.
Proof.
  unfold validResponse, passes, BM_RESPONSE_LEN.
  rewrite andb_true_iff, Nat.eqb_eq, Z.eqb_eq. reflexivity.
Qed.

Lemma validResponse_fails buf :
  validResponse getCRC buf = false <-> ~ passes getCRC buf.
Proof.
  rewrite <- validResponse_passes. destruct (validResponse getCRC buf); split;
    congruence.
Qed.

Lemma polled_length b0 b1 b2 : length (polled getCRC b0 b1 b2) = 12%nat.
Proof.
  unfold polled, gate.
  destruct (validResponse getCRC b0), (validResponse getCRC b1),
    (validResponse getCRC b2); reflexivity.
Qed.

(** Group [j] of the result comes from response [j] alone. *)
Lemma polled_group b0 b1 b2 j :
  (j < 3)%nat ->
  group j (polled getCRC b0 b1 b2) =
  let buf := nth j [b0; b1; b2] [] in
  if validResponse getCRC buf then map wrap16 (cellVoltages buf)
  else replicate 4 0.
Proof.
  intros Hj. unfold polled, gate.
  destruct j as [|[|[|j]]]; [ | | | lia]; cbn [nth];
    destruct (validResponse getCRC b0), (validResponse getCRC b1),
      (validResponse getCRC b2); reflexivity.
Qed.

Lemma item_group j k l : (k < 4)%nat -> item (group j l) k = item l (4 * j + k).
Proof.
  intros Hk. unfold item, group. rewrite nth_firstn.
  destruct (Nat.ltb_spec k 4); [|lia]. apply nth_drop_shift.
Qed.

(** A cell decoded from received bytes is its little-endian 16-bit
    value, and the [uint16] store keeps it. *)
Lemma cell_of_bytes (l : list byte) k :
  (k < 4)%nat ->
  let buf := map Z_of_byte l in
  item (map wrap16 (cellVoltages buf)) k =
    Z.lor (item buf (2 + 2 * k)) (Z.shiftl (item buf (3 + 2 * k)) 8) /\
  item (cellVoltages buf) k = item buf (3 + 2 * k) * 256 + item buf (2 + 2 * k) /\
  0 <= item (cellVoltages buf) k < 65536.
Proof.
  intros Hk buf.
  assert (Hcell : item (cellVoltages buf) k =
                  item buf (3 + 2 * k) * 256 + item buf (2 + 2 * k)).
  { destruct k as [|[|[|[|k]]]]; [ | | | | lia]; cbn [Nat.add Nat.mul];
      unfold cellVoltages, item at 1; cbn [nth];
      apply le16_value; apply item_bytes_range. }
  pose proof (item_bytes_range l (2 + 2 * k)) as Hlo.
  pose proof (item_bytes_range l (3 + 2 * k)) as Hhi.
  fold buf in Hlo, Hhi.
  assert (Hrange : 0 <= item (cellVoltages buf) k < 65536) by lia.
  split; [|split; assumption].
  rewrite Z.lor_comm, lor_shiftl_low by lia. change (2 ^ 8) with 256.
  rewrite <- Hcell.
  transitivity (wrap16 (item (cellVoltages buf) k)).
  - destruct k as [|[|[|[|k]]]]; [reflexivity .. | lia].
  - apply wrap16_small. assumption.
Qed.

(** *** [sendSummary] on the device *)

Lemma sendSummary_real addr Ess_curr w :
  is_byte addr = true ->
  exists w',
    sendSummary getCRC false addr Ess_curr w =
      Ok (let buf := reply w 0 in
          if validResponse getCRC buf then summaryFields buf
          else replicate 8 0, w') /\
    line w' = drop 1 (line w) /\
    draws w' = draws w /\
    trace w' = trace w ++
      [Buzzer true; Buzzer false; SerialWrite (summary_frame getCRC addr Ess_curr)].
Proof.
  intros Ha. unfold sendSummary, beep, bind, emit.
  cbn [rx line draws trace].
  rewrite bytearray_ok by (cbn [forallb]; rewrite Ha, !is_byte_land; reflexivity).
  cbn [negb]. unfold reset_input_buffer, write, read, bind, ret.
  cbn [rx line draws trace app].
  unfold reply. rewrite <- (hd_drop 0 (line w) []). cbn [drop].
  eexists. split; [|split; [|split]].
  - destruct (validResponse getCRC _); reflexivity.
  - cbn [line]. destruct (line w); reflexivity.
  - reflexivity.
  - cbn [trace]. rewrite <- !app_assoc. reflexivity.
Qed.

End Poll.

(** *** Decoding *)

Section Decoding.
Variable getCRC : list Z -> Z -> byte.

Lemma low_nibble_land (b : Z) : Z.land b 0xf = low_nibble b.
Proof. change 0xf with (Z.ones 4). rewrite Z.land_ones by lia. reflexivity. Qed.

Lemma high_nibble_shiftr (b : Z) : Z.shiftr b 4 = high_nibble b.
Proof. rewrite Z.shiftr_div_pow2 by lia. reflexivity. Qed.

Lemma high_nibble_land (b : Z) :
  0 <= b < 256 -> Z.land (Z.shiftr b 4) 0xf = high_nibble b.
Proof.
  intros Hb. rewrite low_nibble_land, high_nibble_shiftr.
  unfold low_nibble, high_nibble. apply Z.mod_small.
  split; [apply Z.div_pos | apply Z.div_lt_upper_bound]; lia.
Qed.

(** The summary fields of received bytes, field by field. *)
Lemma summaryFields_of_bytes (l : list byte) :
  let buf := map Z_of_byte l in
  let b i := item buf i in
  summaryFields buf =
    [ Z.lor (b 2%nat) (Z.shiftl (b 3%nat) 8); low_nibble (b 8%nat);
      Z.lor (b 4%nat) (Z.shiftl (b 5%nat) 8); high_nibble (b 8%nat);
      Z.lor (b 6%nat) (Z.shiftl (b 7%nat) 8);
      Z.lor (b 9%nat) (Z.shiftl (low_nibble (b 10%nat)) 8);
      Z.lor (high_nibble (b 10%nat)) (Z.shiftl (b 11%nat) 4);
      b 12%nat ].
Proof.
  intros buf b. unfold summaryFields. fold (b 2%nat) (b 3%nat) (b 4%nat)
    (b 5%nat) (b 6%nat) (b 7%nat) (b 8%nat) (b 9%nat) (b 10%nat) (b 11%nat)
    (b 12%nat).
  assert (Hb : forall i, 0 <= b i < 256) by (intros i; apply item_bytes_range).
  rewrite !land_byte by apply Hb.
  rewrite high_nibble_land by apply Hb.
  rewrite !low_nibble_land, high_nibble_shiftr.
  rewrite (Z.lor_comm (b 2%nat)), (Z.lor_comm (b 4%nat)), (Z.lor_comm (b 6%nat)),
    (Z.lor_comm (b 9%nat)), (Z.lor_comm (high_nibble (b 10%nat))).
  reflexivity.
Qed.

(** C1: when the 14 bytes read by [sendSummary] pass validation, the
    summary it returns is, in this order, minVoltage, its cell index,
    maxVoltage, its cell index, avgVoltage, temp1, temp2, status, with
    the voltages little endian in bytes (2,3), (4,5), (6,7), the indices
    the low and high nibble of byte 8, temp1 byte 9 with the low nibble of
    byte 10 above it, temp2 the high nibble of byte 10 with byte 11 above
    it, and status byte 12. *)
Theorem C1_summary_decode (addr Ess_curr : Z) (w : World) :
  0 <= addr < 256 ->
  let buf := reply w 0 in
  let b i := item buf i in
  length buf = 14%nat -> crc getCRC buf 14 = 0 ->
  returns (sendSummary getCRC false addr Ess_curr w)
    [ Z.lor (b 2%nat) (Z.shiftl (b 3%nat) 8); low_nibble (b 8%nat);
      Z.lor (b 4%nat) (Z.shiftl (b 5%nat) 8); high_nibble (b 8%nat);
      Z.lor (b 6%nat) (Z.shiftl (b 7%nat) 8);
      Z.lor (b 9%nat) (Z.shiftl (low_nibble (b 10%nat)) 8);
      Z.lor (high_nibble (b 10%nat)) (Z.shiftl (b 11%nat) 4);
      b 12%nat ].
Proof.
  intros Ha buf b Hlen Hcrc. apply is_byte_true in Ha.
  destruct (sendSummary_real getCRC addr Ess_curr w Ha) as (w' & Hrun & _).
  exists w'. rewrite Hrun. cbn zeta. fold buf.
  assert (Hvalid : validResponse getCRC buf = true)
    by (apply validResponse_passes; split; assumption).
  rewrite Hvalid. do 2 f_equal. apply summaryFields_of_bytes.
Qed.

(** C2: on the device, when the response to [SEND_ALL_VOLTAGES_1 + j]
    passes validation, entry [4j + k] of the 12-cell result is the
    little-endian 16-bit value of bytes [2 + 2k], [3 + 2k] of that
    response; the three requests go out in the order j = 0, 1, 2. *)
Theorem C2_voltage_groups (address : Z) (w : World) (j k : nat) :
  0 <= address < 256 -> (j < 3)%nat -> (k < 4)%nat ->
  let buf := reply w (S j) in
  length buf = 14%nat -> crc getCRC buf 14 = 0 ->
  exists allVoltages,
    returns (pollForVoltages getCRC false address w) allVoltages /\
    length allVoltages = 12%nat /\
    item allVoltages (4 * j + k) =
      Z.lor (item buf (2 + 2 * k)) (Z.shiftl (item buf (3 + 2 * k)) 8) /\
    map (fun f => item f 2) (written (pollForVoltages getCRC false address) w) =
      [CMD_GLOBAL_SNAPSHOT; CMD_SEND_ALL_VOLTAGES_1; CMD_SEND_ALL_VOLTAGES_2;
       CMD_SEND_ALL_VOLTAGES_3].
Proof.
  intros Ha Hj Hk buf Hlen Hcrc. apply is_byte_true in Ha.
  destruct (pollForVoltages_real getCRC address w Ha)
    as (w' & Hrun & _ & _ & Htrace).
  eexists. split; [exists w'; exact Hrun|].
  split; [apply polled_length|]. split.
  - rewrite <- item_group by assumption.
    rewrite polled_group by assumption. cbn zeta.
    assert (Hbuf : nth j [reply w 1; reply w 2; reply w 3] [] = buf)
      by (destruct j as [|[|[|j]]]; [reflexivity .. | lia]).
    rewrite Hbuf.
    assert (Hvalid : validResponse getCRC buf = true)
      by (apply validResponse_passes; split; assumption).
    rewrite Hvalid. apply (cell_of_bytes _ k Hk).
  - rewrite (written_trace _ _ _ _ _ Hrun Htrace). reflexivity.
Qed.

(** C3: the fields of a received buffer are extracted exactly when it has
    14 bytes whose CRC-8 is zero.  [sendSummary] returns the decoded
    fields of a buffer that passes and the eight zeros it started from
    otherwise; group [j] of [pollForVoltages] holds the decoded cells of
    response [j] when it passes and the zeros it started from otherwise. *)
Theorem C3_validation_gate (addr Ess_curr : Z) (w : World) :
  0 <= addr < 256 ->
  (exists summary,
      returns (sendSummary getCRC false addr Ess_curr w) summary /\
      let buf := reply w 0 in
      (passes getCRC buf -> summary = summaryFields buf) /\
      (~ passes getCRC buf -> summary = replicate 8 0)) /\
  (exists allVoltages,
      returns (pollForVoltages getCRC false addr w) allVoltages /\
      forall j, (j < 3)%nat ->
        let buf := reply w (S j) in
        (passes getCRC buf ->
           group j allVoltages = map wrap16 (cellVoltages buf)) /\
        (~ passes getCRC buf -> group j allVoltages = replicate 4 0)).
Proof.
  intros Ha. apply is_byte_true in Ha. split.
  - destruct (sendSummary_real getCRC addr Ess_curr w Ha) as (w' & Hrun & _).
    eexists. split; [exists w'; exact Hrun|]. cbn zeta. split; intros Hp.
    + apply validResponse_passes in Hp. rewrite Hp. reflexivity.
    + apply validResponse_fails in Hp. rewrite Hp. reflexivity.
  - destruct (pollForVoltages_real getCRC addr w Ha) as (w' & Hrun & _).
    eexists. split; [exists w'; exact Hrun|].
    intros j Hj buf. rewrite polled_group by assumption. cbn zeta.
    assert (Hbuf : nth j [reply w 1; reply w 2; reply w 3] [] = buf)
      by (destruct j as [|[|[|j]]]; [reflexivity .. | lia]).
    rewrite Hbuf. split; intros Hp.
    + apply validResponse_passes in Hp. rewrite Hp. reflexivity.
    + apply validResponse_fails in Hp. rewrite Hp. reflexivity.
Qed.

End Decoding.

(** *** [controlModule.py]: the poll cycle *)

Section Cycle.
Variable getCRC : list Z -> Z -> byte.

Lemma addresses_are_bytes i : is_byte (item addresses i) = true.
Proof. destruct i as [|[|[|[|i]]]]; reflexivity. Qed.

Lemma pollBoard_real i battery_voltages w :
  exists w',
    pollBoard getCRC false i battery_voltages w =
      Ok (<[i := polled getCRC (reply w 1) (reply w 2) (reply w 3)]>
            battery_voltages, w') /\
    line w' = drop 5 (line w).
Proof.
  unfold pollBoard, bind.
  destruct (pollForVoltages_real getCRC (item addresses i) w
              (addresses_are_bytes i)) as (w1 & Hpoll & Hline1 & _).
  rewrite Hpoll.
  destruct (sendSummary_real getCRC (item addresses i) Ess_current w1
              (addresses_are_bytes i)) as (w2 & Hsum & Hline2 & _).
  rewrite Hsum. exists w2. split; [reflexivity|].
  rewrite Hline2, Hline1, drop_drop. reflexivity.
Qed.

Lemma pollCycle_real battery_voltages w :
  exists w',
    pollCycle getCRC false battery_voltages w =
      Ok (<[2%nat := polled_board getCRC w 2]>
            (<[1%nat := polled_board getCRC w 1]>
               (<[0%nat := polled_board getCRC w 0]> battery_voltages)), w') /\
    line w' = drop 15 (line w).
Proof.
  unfold pollCycle, beep, bind, emit. cbn [rx line draws trace].
  unfold addresses, range. cbn [length seq forM]. unfold bind.
  set (w0 := mkWorld _ _ _ _).
  assert (H0 : line w0 = drop 0 (line w)) by reflexivity.
  destruct (pollBoard_real 0 battery_voltages w0) as (w1 & Hb0 & H1).
  rewrite Hb0.
  destruct (pollBoard_real 1 (<[0%nat := polled getCRC (reply w0 1) (reply w0 2)
                                   (reply w0 3)]> battery_voltages) w1)
    as (w2 & Hb1 & H2).
  rewrite Hb1.
  destruct (pollBoard_real 2
              (<[1%nat := polled getCRC (reply w1 1) (reply w1 2) (reply w1 3)]>
                 (<[0%nat := polled getCRC (reply w0 1) (reply w0 2)
                      (reply w0 3)]> battery_voltages)) w2)
    as (w3 & Hb2 & H3).
  rewrite Hb2. exists w3.
  rewrite H1 in H2. rewrite drop_drop in H2. cbn [Nat.add] in H2.
  rewrite H2 in H3. rewrite drop_drop in H3. cbn [Nat.add] in H3.
  split; [|exact H3].
  unfold polled_board, ret.
  rewrite !(reply_shift w w0 0 _ H0), !(reply_shift w w1 5 _ H1),
    !(reply_shift w w2 10 _ H2).
  reflexivity.
Qed.

(** The polling loop runs any number of cycles. *)
Lemma pollLoop_total cycles battery_voltages w :
  exists battery_voltages' w',
    pollLoop getCRC false cycles battery_voltages w = Ok (battery_voltages', w').
Proof.
  revert battery_voltages w.
  induction cycles as [|n IH]; intros bv w.
  - eexists _, _. reflexivity.
  - cbn [pollLoop]. unfold bind.
    destruct (pollCycle_real bv w) as (w' & Hrun & _). rewrite Hrun.
    apply IH.
Qed.

Lemma row_after_cycle (battery_voltages : list (list Z)) (r0 r1 r2 : list Z) i :
  length battery_voltages = 3%nat -> (i < 3)%nat ->
  nth i (<[2%nat := r2]> (<[1%nat := r1]> (<[0%nat := r0]> battery_voltages))) []
  = nth i [r0; r1; r2] [].
Proof.
  intros Hlen Hi.
  destruct battery_voltages as [|a [|b [|c [|d bv]]]]; try discriminate Hlen.
  destruct i as [|[|[|i]]]; [reflexivity .. | lia].
Qed.

(** C8, amended: a poll cycle never stops early; it stores this cycle's
    result over the previous values of every board, and in that result
    the four cells of a group whose response failed the length or CRC
    check are the zeros that stand for missing data. *)
Theorem C8_failed_frame_stores_zeros (battery_voltages : list (list Z))
    (w : World) (i j : nat) :
  length battery_voltages = 3%nat -> (i < 3)%nat -> (j < 3)%nat ->
  ~ passes getCRC (reply w (5 * i + 1 + j)) ->
  exists battery_voltages' w',
    pollCycle getCRC false battery_voltages w = Ok (battery_voltages', w') /\
    length battery_voltages' = 3%nat /\
    (forall i', (i' < 3)%nat ->
                nth i' battery_voltages' [] = polled_board getCRC w i') /\
    group j (nth i battery_voltages' []) = replicate 4 0 /\
    (forall cycles, exists stored wn,
        pollLoop getCRC false cycles battery_voltages w = Ok (stored, wn)).
Proof.
  intros Hlen Hi Hj Hfail.
  destruct (pollCycle_real battery_voltages w) as (w' & Hrun & _).
  eexists _, w'. split; [exact Hrun|].
  split; [rewrite !length_insert; exact Hlen|].
  assert (Hrows : forall i', (i' < 3)%nat ->
            nth i' (<[2%nat := polled_board getCRC w 2]>
                      (<[1%nat := polled_board getCRC w 1]>
                         (<[0%nat := polled_board getCRC w 0]> battery_voltages))) []
            = polled_board getCRC w i').
  { intros i' Hi'. rewrite row_after_cycle by assumption.
    destruct i' as [|[|[|i']]]; [reflexivity .. | lia]. }
  split; [exact Hrows|]. split.
  - rewrite Hrows by assumption. unfold polled_board.
    rewrite polled_group by assumption. cbn zeta.
    assert (Hbuf : nth j [reply w (5 * i + 1); reply w (5 * i + 2);
                          reply w (5 * i + 3)] [] = reply w (5 * i + 1 + j)).
    { destruct j as [|[|[|j]]]; [ | | | lia]; cbn [nth]; f_equal; lia. }
    rewrite Hbuf. apply validResponse_fails in Hfail. rewrite Hfail. reflexivity.
  - intros cycles. apply pollLoop_total.
Qed.

End Cycle.

(** C8: after one good poll board 0xAD has 100 .. 1200 mV stored; the bus
    then falls silent, every response of the next cycle fails the length
    check, and that cycle replaces the stored values by zeros. *)
Lemma C8_counterexample :
  exists stored w1,
    pollCycle crc8_07 false battery_voltages_init one_good_poll = Ok (stored, w1) /\
    nth 0 stored [] =
      [100; 200; 300; 400; 500; 600; 700; 800; 900; 1000; 1100; 1200] /\
    ~ failed_frame_keeps_stored crc8_07 stored w1.
Proof.
  eexists _, _. split; [vm_compute; reflexivity|].
  split; [reflexivity|].
  intros Hclaim.
  specialize (Hclaim 0%nat 0%nat ltac:(lia) ltac:(lia)).
  vm_compute in Hclaim.
  specialize (Hclaim ltac:(intros [Hlen _]; discriminate Hlen) _ _ eq_refl).
  discriminate Hclaim.
Qed.

(** *** [pollForVoltages] when simulating *)

Section Simulated.
Variable getCRC : list Z -> Z -> byte.

(** The mock response overwrites all 14 bytes of the buffer; its even
    payload bytes are 8-bit draws, its odd ones 4-bit draws. *)
Lemma mockVoltages_run address buf w :
  length buf = 14%nat ->
  exists f w',
    mockVoltages getCRC address buf w = Ok (f, w') /\
    length f = 14%nat /\
    forall k, (k < 4)%nat ->
      0 <= item f (2 + 2 * k) < 256 /\ 0 <= item f (3 + 2 * k) < 16.
Proof.
  intros Hlen.
  do 15 (destruct buf as [|? buf]; try discriminate Hlen).
  unfold mockVoltages, fillRandom, randint, range, bind, ret.
  cbn [seq forM Nat.even fold_left]. unfold bind.
  cbn [rx line draws trace].
  eexists _, _. split; [reflexivity|]. split; [reflexivity|].
  intros k Hk.
  destruct k as [|[|[|[|k]]]]; [ | | | | lia]; cbn [Nat.add Nat.mul];
    unfold item; cbn [nth list_insert insert];
    split; rewrite Z.add_0_l; apply Z.mod_pos_bound; lia.
Qed.

Lemma pollStepSimulated_run address j buf allVoltages w :
  pollStepSimulated getCRC address j (buf, allVoltages) w =
  match mockVoltages getCRC address buf w with
  | Ok (f, w') => Ok ((f, gateSimulated getCRC f j allVoltages), w')
  | Raise e => Raise e
  end.
Proof.
  unfold pollStepSimulated, bind, gateSimulated.
  destruct (mockVoltages getCRC address buf w) as [[f w']|e]; [|reflexivity].
  destruct (validResponse getCRC f); reflexivity.
Qed.

Lemma pollForVoltages_simulated address w :
  is_byte address = true ->
  exists f0 f1 f2 w',
    mock_frames getCRC address w = [f0; f1; f2] /\
    pollForVoltages getCRC true address w =
      Ok (polledSimulated getCRC f0 f1 f2, w') /\
    forall j k, (j < 3)%nat -> (k < 4)%nat ->
      let f := nth j [f0; f1; f2] [] in
      0 <= item f (2 + 2 * k) < 256 /\ 0 <= item f (3 + 2 * k) < 16.
Proof.
  intros Ha.
  destruct (mockVoltages_run address (replicate BM_RESPONSE_LEN 0) w eq_refl)
    as (f0 & w0 & Hm0 & Hl0 & Hr0).
  destruct (mockVoltages_run address f0 w0 Hl0) as (f1 & w1 & Hm1 & Hl1 & Hr1).
  destruct (mockVoltages_run address f1 w1 Hl1) as (f2 & w2 & Hm2 & Hl2 & Hr2).
  exists f0, f1, f2, w2. split; [|split].
  - unfold mock_frames. rewrite Hm0, Hm1, Hm2. reflexivity.
  - unfold pollForVoltages, bind.
    rewrite bytearray_ok by (cbn [forallb]; rewrite Ha; reflexivity).
    cbn [negb]. unfold range. cbn [seq forM]. unfold bind.
    rewrite pollStepSimulated_run, Hm0, pollStepSimulated_run, Hm1,
      pollStepSimulated_run, Hm2.
    reflexivity.
  - intros j k Hj Hk. destruct j as [|[|[|j]]]; [ | | | lia]; cbn [nth]; auto.
Qed.

Lemma polledSimulated_group b0 b1 b2 j :
  (j < 3)%nat ->
  group j (polledSimulated getCRC b0 b1 b2) =
  let buf := nth j [b0; b1; b2] [] in
  if validResponse getCRC buf
  then map (fun v => wrap16 (v + 1)) (cellVoltages buf)
  else replicate 4 0.
Proof.
  intros Hj. unfold polledSimulated, gateSimulated.
  destruct j as [|[|[|j]]]; [ | | | lia]; cbn [nth];
    destruct (validResponse getCRC b0), (validResponse getCRC b1),
      (validResponse getCRC b2); reflexivity.
Qed.

(** A cell decoded from a frame with 8-bit low and 4-bit high bytes. *)
Lemma cell_of_mock f k :
  (k < 4)%nat ->
  0 <= item f (2 + 2 * k) < 256 -> 0 <= item f (3 + 2 * k) < 16 ->
  0 <= item (cellVoltages f) k < 4096.
Proof.
  intros Hk Hlo Hhi.
  assert (Hcell : item (cellVoltages f) k =
                  item f (3 + 2 * k) * 256 + item f (2 + 2 * k)).
  { destruct k as [|[|[|[|k]]]]; [ | | | | lia]; cbn [Nat.add Nat.mul] in *;
      unfold cellVoltages, item at 1; cbn [nth];
      apply le16_value; lia. }
  lia.
Qed.

(** C10: fed the same three responses, the simulated and the device
    path of [pollForVoltages] differ: for every response that passes
    validation the device path stores each decoded cell unchanged and the
    simulated path stores it plus 1, so the filled entries differ by 1
    (the groups of a response that fails stay 0 in both). *)
Theorem C10_simulated_path_adds_one (address : Z) (w_sim w_dev : World) :
  0 <= address < 256 ->
  [reply w_dev 1; reply w_dev 2; reply w_dev 3] = mock_frames getCRC address w_sim ->
  exists simulated device,
    returns (pollForVoltages getCRC true address w_sim) simulated /\
    returns (pollForVoltages getCRC false address w_dev) device /\
    forall j, (j < 3)%nat ->
      let buf := reply w_dev (S j) in
      (passes getCRC buf ->
         forall k, (k < 4)%nat ->
           item device (4 * j + k) = item (cellVoltages buf) k /\
           item simulated (4 * j + k) = item (cellVoltages buf) k + 1 /\
           item simulated (4 * j + k) <> item device (4 * j + k)) /\
      (~ passes getCRC buf ->
         group j device = replicate 4 0 /\ group j simulated = replicate 4 0).
Proof.
  intros Ha Hsame. apply is_byte_true in Ha.
  destruct (pollForVoltages_simulated address w_sim Ha)
    as (f0 & f1 & f2 & ws' & Hframes & Hsim & Hbits).
  destruct (pollForVoltages_real getCRC address w_dev Ha) as (wd' & Hdev & _).
  rewrite Hframes in Hsame. injection Hsame as H0 H1 H2.
  rewrite H0, H1, H2 in Hdev.
  eexists _, _. split; [exists ws'; exact Hsim|].
  split; [exists wd'; exact Hdev|].
  intros j Hj buf.
  assert (Hbuf : nth j [f0; f1; f2] [] = buf).
  { subst buf. destruct j as [|[|[|j]]]; [ | | | lia]; cbn [nth]; congruence. }
  assert (Hmock : forall k, (k < 4)%nat ->
            0 <= item buf (2 + 2 * k) < 256 /\ 0 <= item buf (3 + 2 * k) < 16).
  { intros k Hk. rewrite <- Hbuf. apply Hbits; assumption. }
  split.
  - intros Hp k Hk. apply validResponse_passes in Hp.
    rewrite <- !item_group by assumption.
    rewrite polled_group, polledSimulated_group by assumption. cbn zeta.
    rewrite Hbuf, Hp.
    destruct (Hmock k Hk) as [Hlo Hhi].
    pose proof (cell_of_mock buf k Hk Hlo Hhi) as Hcell.
    assert (Hd : item (map wrap16 (cellVoltages buf)) k
                 = item (cellVoltages buf) k).
    { transitivity (wrap16 (item (cellVoltages buf) k)).
      - destruct k as [|[|[|[|k]]]]; [reflexivity .. | lia].
      - apply wrap16_small. lia. }
    assert (Hs : item (map (fun v => wrap16 (v + 1)) (cellVoltages buf)) k
                 = item (cellVoltages buf) k + 1).
    { transitivity (wrap16 (item (cellVoltages buf) k + 1)).
      - destruct k as [|[|[|[|k]]]]; [reflexivity .. | lia].
      - apply wrap16_small. lia. }
    rewrite Hd, Hs. repeat split; lia.
  - intros Hp. apply validResponse_fails in Hp.
    rewrite polled_group, polledSimulated_group by assumption. cbn zeta.
    rewrite Hbuf, Hp. split; reflexivity.
Qed.

End Simulated.

(** ** The CRC-8 family: a frame that ends in its own checksum *)

Section CRCFacts.
Variable poly init : Z.
Variable reflected : bool.

Local Abbreviation shift := (CRC8.shift poly reflected).
Local Abbreviation update := (CRC8.update poly reflected).
Local Abbreviation checksum := (CRC8.checksum poly init reflected).
Local Abbreviation crc8 := (CRC8.crcCalcCRC8 poly init reflected).

Lemma shift_zero : shift 0 = 0.
Proof. unfold CRC8.shift. destruct reflected; reflexivity. Qed.

Lemma iter_shift_zero (n : nat) : Nat.iter n shift 0 = 0.
Proof.
  induction n as [|n IH]; [reflexivity|].
  rewrite Nat.iter_succ, IH. apply shift_zero.
Qed.

Lemma update_self (c : Z) : update c c = 0.
Proof.
  unfold CRC8.update. rewrite Z.lxor_nilpotent.
  change (Z.land 0 255) with 0. apply iter_shift_zero.
Qed.

Lemma land_255_range (z : Z) : 0 <= Z.land z 255 < 256.
Proof.
  change 255 with (Z.ones 8). rewrite Z.land_ones by lia.
  apply Z.mod_pos_bound. lia.
Qed.

Lemma lxor_bytes_range (a b : Z) :
  0 <= a < 256 -> 0 <= b < 256 -> 0 <= Z.lxor a b < 256.
Proof.
  intros Ha Hb.
  assert (Hmod : Z.lxor a b = Z.lxor a b mod 2 ^ 8).
  { apply Z.bits_inj'. intros n Hn. rewrite Z.testbit_mod_pow2 by lia.
    destruct (Z.ltb_spec n 8) as [Hlt | Hge]; [reflexivity|].
    rewrite Z.lxor_spec.
    rewrite <- (Z.mod_small a (2 ^ 8)), <- (Z.mod_small b (2 ^ 8)) by lia.
    rewrite !Z.mod_pow2_bits_high by lia. reflexivity. }
  rewrite Hmod. apply Z.mod_pos_bound. lia.
Qed.

Lemma shift_range (c : Z) : 0 <= c < 256 -> 0 <= shift c < 256.
Proof.
  intros Hc. unfold CRC8.shift.
  assert (Hhalf : 0 <= Z.shiftr c 1 < 256).
  { rewrite Z.shiftr_div_pow2 by lia. change (2 ^ 1) with 2.
    split; [apply Z.div_pos | apply Z.div_lt_upper_bound]; lia. }
  destruct reflected.
  - destruct (Z.testbit c 0); [|assumption].
    apply lxor_bytes_range; [assumption | apply land_255_range].
  - destruct (Z.testbit c 7); apply land_255_range.
Qed.

Lemma update_range (c b : Z) : 0 <= update c b < 256.
Proof.
  unfold CRC8.update. generalize 8%nat. intros n.
  induction n as [|n IH].
  - apply land_255_range.
  - rewrite Nat.iter_succ. apply shift_range, IH.
Qed.

Lemma checksum_range (data : list Z) (n : Z) : 0 <= checksum data n < 256.
Proof.
  unfold CRC8.checksum.
  generalize (take (Z.to_nat n) data). intros l.
  assert (Hinit : 0 <= Z.land init 255 < 256) by apply land_255_range.
  revert Hinit. generalize (Z.land init 255). intros c Hc.
  revert c Hc. induction l as [|b l IH]; intros c Hc; cbn [fold_left].
  - assumption.
  - apply IH, update_range.
Qed.

Lemma crc_checksum (data : list Z) (n : Z) :
  crc crc8 data n = checksum data n.
Proof. unfold crc, CRC8.crcCalcCRC8. apply Z_of_byte_of_Z, checksum_range. Qed.

(** Sealing an 8-byte frame makes its checksum over all 8 bytes zero. *)
Lemma seal_validates (frame : list Z) :
  length frame = 8%nat -> crc crc8 (seal crc8 frame) 8 = 0.
Proof.
  intros Hlen.
  do 9 (destruct frame as [|? frame]; try discriminate Hlen).
  unfold seal. cbn [insert list_insert]. rewrite !crc_checksum.
  unfold CRC8.checksum.
  change (Z.to_nat 8) with 8%nat. change (Z.to_nat 7) with 7%nat.
  cbn [take firstn fold_left]. apply update_self.
Qed.

Lemma sealed_validates (f : list Z) :
  sealed crc8 f -> length f = 8%nat /\ crc crc8 f 8 = 0.
Proof.
  intros (l & Hlen & ->). split.
  - unfold seal. rewrite length_insert. assumption.
  - apply seal_validates. assumption.
Qed.

End CRCFacts.

(** *** Every frame the driver sends validates *)

Section Sealed.
Variable poly init : Z.
Variable reflected : bool.

Local Abbreviation crc8 := (CRC8.crcCalcCRC8 poly init reflected).

Lemma globalSnapshot_written Ess_curr w :
  written (globalSnapshot crc8 Ess_curr) w = [snapshot_frame crc8 Ess_curr].
Proof.
  rewrite (written_trace (globalSnapshot crc8 Ess_curr) w _ tt
             [SerialWrite (snapshot_frame crc8 Ess_curr)] eq_refl eq_refl).
  reflexivity.
Qed.

Lemma driver_frames_sealed addr target Ess_curr Ess_curr' :
  Forall (sealed crc8)
    ([balance_frame crc8 addr target; summary_frame crc8 addr Ess_curr;
      snapshot_frame crc8 Ess_curr'; snapshot_frame crc8 Ess_current]
     ++ voltage_frames crc8 addr ++ addressing_frames crc8).
Proof.
  cbv zeta delta [voltage_frames addressing_frames app].
  repeat (apply Forall_cons; split;
          [eexists; split; [|reflexivity]; reflexivity|]).
  apply Forall_nil_2.
Qed.

(** C9: under every member of the CRC-8 family, each command frame the
    driver builds and sends (balance target, summary request, snapshot,
    the three voltage requests, the addressing commands) has 8 bytes
    whose CRC-8 over the full frame is zero once its last byte holds the
    CRC-8 of the first 7. *)
Theorem C9_command_frames_validate (addr target Ess_curr : Z) (w : World) :
  0 <= addr < 256 ->
  let valid f := length f = 8%nat /\ crc crc8 f 8 = 0 in
  written (balanceTarget crc8 false addr target) w =
    [balance_frame crc8 addr target] /\
  written (sendSummary crc8 false addr Ess_curr) w =
    [summary_frame crc8 addr Ess_curr] /\
  written (globalSnapshot crc8 Ess_curr) w = [snapshot_frame crc8 Ess_curr] /\
  written (pollForVoltages crc8 false addr) w =
    snapshot_frame crc8 Ess_current :: voltage_frames crc8 addr /\
  written (assignAddresses crc8 false) w = addressing_frames crc8 /\
  Forall valid
    ([balance_frame crc8 addr target; summary_frame crc8 addr Ess_curr;
      snapshot_frame crc8 Ess_curr; snapshot_frame crc8 Ess_current]
     ++ voltage_frames crc8 addr ++ addressing_frames crc8).
Proof.
  intros Ha valid. apply is_byte_true in Ha.
  split.
  { rewrite (written_trace _ _ _ _ _ (balanceTarget_real crc8 addr target w Ha)
               eq_refl). reflexivity. }
  split.
  { destruct (sendSummary_real crc8 addr Ess_curr w Ha) as (w' & Hrun & _ & _ & Ht).
    rewrite (written_trace _ _ _ _ _ Hrun Ht). reflexivity. }
  split; [apply globalSnapshot_written|].
  split.
  { destruct (pollForVoltages_real crc8 addr w Ha) as (w' & Hrun & _ & _ & Ht).
    rewrite (written_trace _ _ _ _ _ Hrun Ht). cbn [writes omap list_omap map].
    reflexivity. }
  split; [apply assignAddresses_written|].
  eapply Forall_impl; [apply driver_frames_sealed|].
  intros f Hf. apply sealed_validates. exact Hf.
Qed.

End Sealed.

(** * Further properties of the driver *)

(** ** 16-bit payloads *)

Lemma le16_split (v : Z) : lsb v + 256 * msb v = v mod 65536.
Proof.
  unfold lsb, msb. change 0xff with (Z.ones 8).
  rewrite !Z.land_ones, Z.shiftr_div_pow2 by lia. change (2 ^ 8) with 256.
  change 65536 with (256 * 256). rewrite Z.rem_mul_r by lia. reflexivity.
Qed.

Lemma lsb_range (v : Z) : 0 <= lsb v < 256.
Proof. apply land_255_range. Qed.

Lemma msb_range (v : Z) : 0 <= msb v < 256.
Proof. apply land_255_range. Qed.

Lemma le16_join (v : Z) : Z.lor (lsb v) (Z.shiftl (msb v) 8) = v mod 65536.
Proof.
  rewrite Z.lor_comm, lor_shiftl_low by (pose proof (lsb_range v); lia).
  rewrite <- le16_split. change (2 ^ 8) with 256. lia.
Qed.

(** What the driver's decoders make of a value split by its encoders. *)
Lemma le16_decode (v : Z) :
  0 <= v < 65536 -> Z.lor (Z.shiftl (Z.land (msb v) 0xff) 8) (lsb v) = v.
Proof.
  intros Hv. rewrite le16_value by (apply lsb_range || apply msb_range).
  pose proof (le16_split v) as H. rewrite Z.mod_small in H by assumption. lia.
Qed.

Section Payloads.
Variable getCRC : list Z -> Z -> byte.

(** X2: [balanceTarget] takes any integer as target: the frame it sends
    to a byte-sized address is [HEAD, addr, 0xAA, 0, lo, hi, 0, crc] with
    [lo | hi << 8 = (target - 1) mod 65536], so a target of 0 goes out as
    0xFFFF and 65537 as 0. *)
Theorem balance_target_wraps (addr target : Z) (w : World) :
  0 <= addr < 256 ->
  exists f,
    written (balanceTarget getCRC false addr target) w = [f] /\
    length f = 8%nat /\
    take 7 f = [HEAD; addr; CMD_BALANCE_TARGET; 0; lsb (target - 1);
                msb (target - 1); 0] /\
    item f 7 = crc getCRC (take 7 f ++ [0xFF]) 7 /\
    Z.lor (item f 4) (Z.shiftl (item f 5) 8) = (target - 1) mod 65536.
Proof.
  intros Ha. apply is_byte_true in Ha.
  exists (balance_frame getCRC addr target).
  split.
  { rewrite (written_trace _ _ _ _ _ (balanceTarget_real getCRC addr target w Ha)
               eq_refl). reflexivity. }
  split; [reflexivity|]. split; [reflexivity|]. split; [reflexivity|].
  apply le16_join.
Qed.

(** X3: [globalSnapshot] always broadcasts exactly one frame,
    [HEAD, 0xFF, 0x46, 0, lo, hi, 0, crc] with
    [lo | hi << 8 = Ess_curr mod 65536]; it neither clears nor reads the
    input buffer, which grows by whatever the bus answers. *)
Theorem snapshot_broadcast (Ess_curr : Z) (w : World) :
  exists f w',
    globalSnapshot getCRC Ess_curr w = Ok (tt, w') /\
    trace w' = trace w ++ [SerialWrite f] /\
    take 7 f = [HEAD; GLOBAL_ADDR; CMD_GLOBAL_SNAPSHOT; 0; lsb Ess_curr;
                msb Ess_curr; 0] /\
    length f = 8%nat /\
    Z.lor (item f 4) (Z.shiftl (item f 5) 8) = Ess_curr mod 65536 /\
    rx w' = rx w ++ hd [] (line w) /\
    line w' = tl (line w) /\
    draws w' = draws w.
Proof.
  exists (snapshot_frame getCRC Ess_curr). eexists.
  split; [reflexivity|]. repeat split. apply le16_join.
Qed.

(** X4: the request [sendSummary] sends to a byte-sized address is
    [HEAD, addr, 0x50, 0, lo, hi, 0, crc] with
    [lo | hi << 8 = Ess_curr mod 65536], and it is the only frame sent. *)
Theorem summary_request (addr Ess_curr : Z) (w : World) :
  0 <= addr < 256 ->
  exists f,
    written (sendSummary getCRC false addr Ess_curr) w = [f] /\
    length f = 8%nat /\
    take 7 f = [HEAD; addr; CMD_SEND_SUMMARY; 0; lsb Ess_curr; msb Ess_curr; 0] /\
    Z.lor (item f 4) (Z.shiftl (item f 5) 8) = Ess_curr mod 65536.
Proof.
  intros Ha. apply is_byte_true in Ha.
  exists (summary_frame getCRC addr Ess_curr).
  destruct (sendSummary_real getCRC addr Ess_curr w Ha) as (w' & Hrun & _ & _ & Ht).
  split; [rewrite (written_trace _ _ _ _ _ Hrun Ht); reflexivity|].
  repeat split. apply le16_join.
Qed.

End Payloads.

(** ** Addresses that are no bytes *)

Section BadAddress.
Variable getCRC : list Z -> Z -> byte.

Lemma is_byte_false (z : Z) : ~ 0 <= z < 256 -> is_byte z = false.
Proof.
  intros H. destruct (is_byte z) eqn:E; [|reflexivity].
  apply is_byte_true in E. contradiction.
Qed.

(** X1: in either mode an address outside 0..255 makes
    [pollForVoltages], [sendSummary] and [balanceTarget] raise
    [ValueError] (from [bytearray]) instead of returning a result. *)
Theorem bad_address_raises (simulate : bool) (address target Ess_curr : Z)
    (w : World) :
  ~ 0 <= address < 256 ->
  pollForVoltages getCRC simulate address w = Raise ValueError /\
  sendSummary getCRC simulate address Ess_curr w = Raise ValueError /\
  balanceTarget getCRC simulate address target w = Raise ValueError.
Proof.
  intros Hbad. apply is_byte_false in Hbad.
  unfold pollForVoltages, sendSummary, balanceTarget, balanceTargetFrame,
    beep, bind, emit, bytearray.
  cbn [forallb]. rewrite Hbad. repeat split; reflexivity.
Qed.

End BadAddress.

(** ** The simulated paths *)

Section SimulatedWorld.
Variable getCRC : list Z -> Z -> byte.

(** The mock voltage response uses eight draws and nothing else of the
    world. *)
Lemma mockVoltages_world address buf w :
  length buf = 14%nat ->
  exists f,
    mockVoltages getCRC address buf w =
      Ok (f, mkWorld (rx w) (line w) (drop 8 (draws w)) (trace w)) /\
    length f = 14%nat.
Proof.
  intros Hlen.
  do 15 (destruct buf as [|? buf]; try discriminate Hlen).
  unfold mockVoltages, fillRandom, randint, range, bind, ret.
  cbn [seq forM Nat.even fold_left]. unfold bind.
  cbn [rx line draws trace].
  change (tail (draws w)) with (tail (drop 0 (draws w))). rewrite !tl_drop.
  eexists. split; reflexivity.
Qed.

Lemma randint_range a b w :
  a <= b -> exists r, randint a b w =
    Ok (r, mkWorld (rx w) (line w) (tl (draws w)) (trace w)) /\ a <= r <= b.
Proof.
  intros Hab. eexists. split; [reflexivity|].
  pose proof (Z.mod_pos_bound (hd 0 (draws w)) (b - a + 1)). lia.
Qed.

(** The mock summary response: 14 bytes, built from eleven draws. *)
Lemma mockSummary_run addr buf w :
  length buf = 14%nat -> 0 <= addr < 256 ->
  exists f,
    mockSummary getCRC addr buf w =
      Ok (f, mkWorld (rx w) (line w) (drop 11 (draws w)) (trace w)) /\
    length f = 14%nat /\
    (forall i, 0 <= item f i < 256) /\
    (forall i, In i [3; 5; 7]%nat -> item f i < 16) /\
    item f 8 <= 0xbb /\ item f 12 <= 7.
Proof.
  intros Hlen Ha.
  do 15 (destruct buf as [|? buf]; try discriminate Hlen).
  cbv [mockSummary fillRandom randint range bind ret forM seq Nat.even].
  cbn [rx line draws trace].
  change (tail (draws w)) with (tail (drop 0 (draws w))). rewrite !tl_drop.
  eexists. split; [reflexivity|]. split; [reflexivity|].
  cbn [insert list_insert].
  assert (Hd : forall d m, 0 < m -> 0 <= 0 + d mod (m - 0 + 1) <= m).
  { intros d m Hm. pose proof (Z.mod_pos_bound d (m - 0 + 1)). lia. }
  split; [|split; [|split]].
  - intros i. unfold item.
    do 14 (destruct i as [|i];
           [cbn [nth]; first [ apply crc_range | unfold HEAD; lia
                             | match goal with
                               | |- _ <= 0 + ?d mod (?m - 0 + 1) < _ =>
                                   pose proof (Hd d m ltac:(lia)); lia
                               end ] |]).
    destruct i; cbn [nth]; lia.
  - intros i Hi. cbn [In] in Hi. unfold item.
    destruct Hi as [<- | [<- | [<- | []]]]; cbn [nth];
      match goal with
      | |- 0 + ?d mod (?m - 0 + 1) < _ => pose proof (Hd d m ltac:(lia)); lia
      end.
  - unfold item. cbn [nth].
    match goal with
    | |- 0 + ?d mod (?m - 0 + 1) <= _ => pose proof (Hd d m ltac:(lia)); lia
    end.
  - unfold item. cbn [nth].
    match goal with
    | |- 0 + ?d mod (?m - 0 + 1) <= _ => pose proof (Hd d m ltac:(lia)); lia
    end.
Qed.

End SimulatedWorld.

(** ** The shape of the results *)

Section Shapes.
Variable getCRC : list Z -> Z -> byte.

Lemma wrap16_range (z : Z) : 0 <= wrap16 z < 65536.
Proof. unfold wrap16. apply Z.mod_pos_bound. lia. Qed.

Lemma storeCells_Forall (P : Z -> Prop) j cells allVoltages :
  Forall P allVoltages ->
  (forall k, (k < 4)%nat -> P (wrap16 (item cells k))) ->
  Forall P (storeCells j cells allVoltages).
Proof.
  intros Hall Hcells. unfold storeCells, range. cbn [seq fold_left].
  repeat apply Forall_insert; try assumption; apply Hcells; lia.
Qed.

Lemma storeCellsSimulated_Forall (P : Z -> Prop) j cells allVoltages :
  Forall P allVoltages ->
  (forall k, (k < 4)%nat -> P (wrap16 (item cells k + 1))) ->
  Forall P (storeCellsSimulated j cells allVoltages).
Proof.
  intros Hall Hcells. unfold storeCellsSimulated, range. cbn [seq fold_left].
  repeat apply Forall_insert; try assumption; apply Hcells; lia.
Qed.

Lemma zeros_Forall (P : Z -> Prop) n : P 0 -> Forall P (replicate n 0).
Proof. intros H0. apply Forall_replicate. exact H0. Qed.

Lemma polled_in_range b0 b1 b2 :
  Forall (fun v => 0 <= v < 65536) (polled getCRC b0 b1 b2).
Proof.
  unfold polled, gate.
  assert (Hz : Forall (fun v => 0 <= v < 65536) (replicate 12 0))
    by (apply zeros_Forall; lia).
  repeat match goal with
         | |- Forall _ (if ?c then _ else _) => destruct c
         | |- Forall _ (storeCells _ _ _) =>
             apply storeCells_Forall; [|intros; apply wrap16_range]
         end; exact Hz.
Qed.

Lemma polledSimulated_length b0 b1 b2 :
  length (polledSimulated getCRC b0 b1 b2) = 12%nat.
Proof.
  unfold polledSimulated, gateSimulated.
  destruct (validResponse getCRC b0), (validResponse getCRC b1),
    (validResponse getCRC b2); reflexivity.
Qed.

Lemma polledSimulated_in_range b0 b1 b2 :
  (forall j k, (j < 3)%nat -> (k < 4)%nat ->
     let f := nth j [b0; b1; b2] [] in
     0 <= item f (2 + 2 * k) < 256 /\ 0 <= item f (3 + 2 * k) < 16) ->
  Forall (fun v => 0 <= v <= 4096) (polledSimulated getCRC b0 b1 b2).
Proof.
  intros Hbits. unfold polledSimulated, gateSimulated.
  assert (Hz : Forall (fun v => 0 <= v <= 4096) (replicate 12 0))
    by (apply zeros_Forall; lia).
  assert (Hcell : forall j k, (j < 3)%nat -> (k < 4)%nat ->
            0 <= wrap16 (item (cellVoltages (nth j [b0; b1; b2] [])) k + 1)
              <= 4096).
  { intros j k Hj Hk. destruct (Hbits j k Hj Hk) as [Hlo Hhi].
    pose proof (cell_of_mock _ k Hk Hlo Hhi) as Hc.
    rewrite wrap16_small; lia. }
  repeat match goal with
         | |- Forall _ (if ?c then _ else _) => destruct c
         | |- Forall _ (storeCellsSimulated _ _ _) =>
             apply storeCellsSimulated_Forall; [|intros k Hk]
         end; try exact Hz.
  all: first [ apply (Hcell 0%nat k ltac:(lia) Hk)
             | apply (Hcell 1%nat k ltac:(lia) Hk)
             | apply (Hcell 2%nat k ltac:(lia) Hk) ].
Qed.

(** X5: for a byte-sized address [pollForVoltages] returns, in either
    mode, twelve cells of 0..65535; when simulating no cell exceeds
    4096. *)
Theorem poll_result_shape (simulate : bool) (address : Z) (w : World) :
  0 <= address < 256 ->
  exists allVoltages,
    returns (pollForVoltages getCRC simulate address w) allVoltages /\
    length allVoltages = 12%nat /\
    Forall (fun v => 0 <= v < 65536) allVoltages /\
    (simulate = true -> Forall (fun v => 0 <= v <= 4096) allVoltages).
Proof.
  intros Ha. apply is_byte_true in Ha. destruct simulate.
  - destruct (pollForVoltages_simulated getCRC address w Ha)
      as (f0 & f1 & f2 & w' & _ & Hrun & Hbits).
    eexists. split; [exists w'; exact Hrun|].
    split; [apply polledSimulated_length|].
    pose proof (polledSimulated_in_range f0 f1 f2 Hbits) as Hr.
    split; [|intros _; exact Hr].
    eapply Forall_impl; [exact Hr|]. cbn beta. intros v Hv. lia.
  - destruct (pollForVoltages_real getCRC address w Ha) as (w' & Hrun & _).
    eexists. split; [exists w'; exact Hrun|].
    split; [apply polled_length|].
    split; [apply polled_in_range|]. discriminate.
Qed.

(** The fields decoded from 14 bytes stay inside their widths. *)
Lemma summaryFields_bounds (buf : list Z) :
  (forall i, 0 <= item buf i < 256) ->
  Forall2 (fun v bound => 0 <= v < bound) (summaryFields buf) summary_bounds.
Proof.
  intros Hb. unfold summaryFields, summary_bounds.
  assert (H16 : forall x, 0 <= Z.land x 0xf < 16).
  { intros x. rewrite low_nibble_land. unfold low_nibble.
    apply Z.mod_pos_bound. lia. }
  assert (Hhn : forall x, 0 <= x < 256 -> 0 <= Z.shiftr x 4 < 16).
  { intros x Hx. rewrite high_nibble_shiftr. unfold high_nibble.
    split; [apply Z.div_pos | apply Z.div_lt_upper_bound]; lia. }
  assert (H255 : forall x, 0 <= Z.land x 0xff < 256) by apply land_255_range.
  assert (Hv : forall hi lo,
             0 <= Z.lor (Z.shiftl (Z.land hi 0xff) 8) (Z.land lo 0xff) < 65536).
  { intros hi lo. pose proof (H255 hi) as Hhi. pose proof (H255 lo) as Hlo.
    rewrite lor_shiftl_low by lia. change (2 ^ 8) with 256. lia. }
  repeat apply Forall2_cons_2; try apply Forall2_nil_2; try apply Hv;
    try apply H16; try apply Hb.
  - pose proof (H16 (item buf 10)) as Hhi.
    pose proof (H255 (item buf 9)) as Hlo.
    rewrite lor_shiftl_low by lia. change (2 ^ 8) with 256. lia.
  - pose proof (Hhn _ (Hb 10%nat)) as Hlo.
    pose proof (H255 (item buf 11)) as Hhi.
    rewrite lor_shiftl_low by lia. change (2 ^ 4) with 16. lia.
Qed.

Lemma zeros_bounds :
  Forall2 (fun v bound => 0 <= v < bound) (replicate 8 0) summary_bounds.
Proof.
  unfold summary_bounds. cbn [replicate].
  repeat apply Forall2_cons_2; try apply Forall2_nil_2; lia.
Qed.

Lemma sendSummary_simulated addr Ess_curr w :
  0 <= addr < 256 ->
  exists f,
    sendSummary getCRC true addr Ess_curr w =
      Ok (if validResponse getCRC f then summaryFields f else replicate 8 0,
          mkWorld (rx w) (line w) (drop 11 (draws w))
                  (trace w ++ [Buzzer true; Buzzer false])) /\
    length f = 14%nat /\
    (forall i, 0 <= item f i < 256) /\
    (forall i, In i [3; 5; 7]%nat -> item f i < 16) /\
    item f 8 <= 0xbb /\ item f 12 <= 7.
Proof.
  intros Ha. pose proof Ha as Hbyte. apply is_byte_true in Hbyte.
  unfold sendSummary, beep, bind, emit. cbn [rx line draws trace].
  rewrite bytearray_ok
    by (cbn [forallb]; rewrite Hbyte, !is_byte_land; reflexivity).
  cbn [negb].
  match goal with
  | |- context [mockSummary getCRC addr ?b ?w0] =>
      destruct (mockSummary_run getCRC addr b w0 eq_refl Ha)
        as (f & Hm & Hfacts)
  end.
  rewrite Hm. cbn [rx line draws trace]. exists f. split; [|exact Hfacts].
  rewrite <- !app_assoc. cbn [app].
  destruct (validResponse getCRC f); reflexivity.
Qed.

(** X6: for a byte-sized address [sendSummary] returns, in either mode,
    eight fields inside their widths: voltages below 65536, cell indices
    below 16, temperatures below 4096, status below 256. *)
Theorem summary_result_shape (simulate : bool) (addr Ess_curr : Z) (w : World) :
  0 <= addr < 256 ->
  exists summary,
    returns (sendSummary getCRC simulate addr Ess_curr w) summary /\
    Forall2 (fun v bound => 0 <= v < bound) summary summary_bounds.
Proof.
  intros Ha. destruct simulate.
  - destruct (sendSummary_simulated addr Ess_curr w Ha) as (f & Hrun & _ & Hb & _).
    eexists. split; [eexists; exact Hrun|].
    destruct (validResponse getCRC f);
      [apply summaryFields_bounds; exact Hb | apply zeros_bounds].
  - apply is_byte_true in Ha.
    destruct (sendSummary_real getCRC addr Ess_curr w Ha) as (w' & Hrun & _).
    eexists. split; [exists w'; exact Hrun|]. cbn zeta.
    destruct (validResponse getCRC (reply w 0));
      [apply summaryFields_bounds; intros i; apply item_bytes_range
      | apply zeros_bounds].
Qed.

End Shapes.

(** ** Round trips *)

Section RoundTrips.
Variable getCRC : list Z -> Z -> byte.

(** X7: the voltage decoder inverts the byte split the driver's own
    encoders use ([lsb_byte], [msb_byte]): a validated response to request
    [j] whose bytes 2..9 carry four values of 0..65535, low byte first,
    comes back as exactly these four values in group [j]. *)
Theorem voltage_round_trip (address : Z) (w : World) (j : nat)
    (v0 v1 v2 v3 h a x y z c : Z) :
  0 <= address < 256 -> (j < 3)%nat ->
  0 <= v0 < 65536 -> 0 <= v1 < 65536 -> 0 <= v2 < 65536 -> 0 <= v3 < 65536 ->
  reply w (S j) = [h; a; lsb v0; msb v0; lsb v1; msb v1; lsb v2; msb v2;
                  lsb v3; msb v3; x; y; z; c] ->
  crc getCRC (reply w (S j)) 14 = 0 ->
  exists allVoltages,
    returns (pollForVoltages getCRC false address w) allVoltages /\
    group j allVoltages = [v0; v1; v2; v3].
Proof.
  intros Ha Hj H0 H1 H2 H3 Hreply Hcrc. apply is_byte_true in Ha.
  destruct (pollForVoltages_real getCRC address w Ha) as (w' & Hrun & _).
  eexists. split; [exists w'; exact Hrun|].
  rewrite polled_group by assumption. cbn zeta.
  assert (Hbuf : nth j [reply w 1; reply w 2; reply w 3] [] = reply w (S j))
    by (destruct j as [|[|[|j]]]; [reflexivity .. | lia]).
  rewrite Hbuf.
  assert (Hvalid : validResponse getCRC (reply w (S j)) = true).
  { apply validResponse_passes. split; [rewrite Hreply; reflexivity | exact Hcrc]. }
  rewrite Hvalid, Hreply. unfold cellVoltages, item. cbn [nth map].
  rewrite !le16_decode, !wrap16_small by assumption. reflexivity.
Qed.

(** X8: the summary decoder recovers every combination of fields: when
    a validated response packs three 16-bit voltages low byte first, the
    two cell indices into the nibbles of byte 8 and the two 12-bit
    temperatures into bytes 9..11 around the shared byte 10, [sendSummary]
    returns exactly these fields; no field disturbs another. *)
Theorem summary_round_trip (addr Ess_curr : Z) (w : World)
    (minV minLoc maxV maxLoc avgV temp1 temp2 status h a c : Z) :
  0 <= addr < 256 ->
  0 <= minV < 65536 -> 0 <= maxV < 65536 -> 0 <= avgV < 65536 ->
  0 <= minLoc < 16 -> 0 <= maxLoc < 16 ->
  0 <= temp1 < 4096 -> 0 <= temp2 < 4096 -> 0 <= status < 256 ->
  reply w 0 = [h; a; lsb minV; msb minV; lsb maxV; msb maxV; lsb avgV; msb avgV;
               minLoc + 16 * maxLoc;
               temp1 mod 256; temp1 / 256 + 16 * (temp2 mod 16); temp2 / 16;
               status; c] ->
  crc getCRC (reply w 0) 14 = 0 ->
  returns (sendSummary getCRC false addr Ess_curr w)
          [minV; minLoc; maxV; maxLoc; avgV; temp1; temp2; status].
Proof.
  intros Ha Hmin Hmax Havg Hl1 Hl2 Ht1 Ht2 Hst Hreply Hcrc.
  apply is_byte_true in Ha.
  destruct (sendSummary_real getCRC addr Ess_curr w Ha) as (w' & Hrun & _).
  exists w'. rewrite Hrun. cbn zeta.
  assert (Hvalid : validResponse getCRC (reply w 0) = true).
  { apply validResponse_passes. split; [rewrite Hreply; reflexivity | exact Hcrc]. }
  rewrite Hvalid. do 2 f_equal.
  unfold reply in *. rewrite summaryFields_of_bytes. cbn zeta.
  rewrite Hreply. unfold item. cbn [nth].
  rewrite !le16_join, !Z.mod_small by assumption.
  unfold low_nibble, high_nibble.
  assert (E1 : (minLoc + 16 * maxLoc) mod 16 = minLoc)
    by (Z.div_mod_to_equations; lia).
  assert (E2 : (minLoc + 16 * maxLoc) / 16 = maxLoc)
    by (Z.div_mod_to_equations; lia).
  assert (Hq1 : 0 <= temp1 / 256 < 16) by (Z.div_mod_to_equations; lia).
  assert (Hr2 : 0 <= temp2 mod 16 < 16) by (Z.div_mod_to_equations; lia).
  assert (Hr1 : 0 <= temp1 mod 256 < 256) by (Z.div_mod_to_equations; lia).
  assert (Hq2 : 0 <= temp2 / 16 < 256) by (Z.div_mod_to_equations; lia).
  assert (E3 : (temp1 / 256 + 16 * (temp2 mod 16)) mod 16 = temp1 / 256)
    by (Z.div_mod_to_equations; lia).
  assert (E4 : (temp1 / 256 + 16 * (temp2 mod 16)) / 16 = temp2 mod 16)
    by (Z.div_mod_to_equations; lia).
  rewrite E1, E2, E3, E4.
  rewrite (Z.lor_comm (temp1 mod 256)), (Z.lor_comm (temp2 mod 16)).
  rewrite !lor_shiftl_low by lia.
  change (2 ^ 8) with 256. change (2 ^ 4) with 16.
  pose proof (Z.div_mod temp1 256 ltac:(lia)).
  pose proof (Z.div_mod temp2 16 ltac:(lia)).
  repeat f_equal; lia.
Qed.

End RoundTrips.

(** ** What each mode leaves alone *)

Section Modes.
Variable getCRC : list Z -> Z -> byte.

Lemma pollForVoltages_simulated_world address w :
  is_byte address = true ->
  exists allVoltages,
    pollForVoltages getCRC true address w =
      Ok (allVoltages, mkWorld (rx w) (line w) (drop 24 (draws w)) (trace w)).
Proof.
  intros Ha.
  destruct (mockVoltages_world getCRC address (replicate BM_RESPONSE_LEN 0) w
              (length_replicate _ _)) as (f0 & Hw0 & Hl0).
  destruct (mockVoltages_world getCRC address f0
              (mkWorld (rx w) (line w) (drop 8 (draws w)) (trace w)) Hl0)
    as (f1 & Hw1 & Hl1).
  destruct (mockVoltages_world getCRC address f1
              (mkWorld (rx w) (line w) (drop 16 (draws w)) (trace w)) Hl1)
    as (f2 & Hw2 & _).
  cbn [rx line draws trace] in *. rewrite !drop_drop in *. cbn [Nat.add] in *.
  unfold pollForVoltages, bind.
  rewrite bytearray_ok by (cbn [forallb]; rewrite Ha; reflexivity).
  cbn [negb]. unfold range. cbn [seq forM]. unfold bind.
  rewrite pollStepSimulated_run, Hw0, pollStepSimulated_run, Hw1,
    pollStepSimulated_run, Hw2.
  eexists. reflexivity.
Qed.

(** X9: when simulating, the driver leaves the serial port alone:
    [assignAddresses] changes nothing at all, [pollForVoltages] only
    uses 24 random draws, [sendSummary] sounds the buzzer and uses 11
    draws, [balanceTarget] sounds the buzzer and answers [True]; none of
    them writes a frame or touches the input buffer or the bus. *)
Theorem simulation_leaves_port (address target Ess_curr : Z) (w : World) :
  0 <= address < 256 ->
  assignAddresses getCRC true w = Ok (tt, w) /\
  (exists allVoltages,
      pollForVoltages getCRC true address w =
        Ok (allVoltages, mkWorld (rx w) (line w) (drop 24 (draws w)) (trace w))) /\
  (exists summary,
      sendSummary getCRC true address Ess_curr w =
        Ok (summary, mkWorld (rx w) (line w) (drop 11 (draws w))
                             (trace w ++ [Buzzer true; Buzzer false]))) /\
  balanceTarget getCRC true address target w =
    Ok (true, mkWorld (rx w) (line w) (draws w)
                      (trace w ++ [Buzzer true; Buzzer false])).
Proof.
  intros Ha. pose proof Ha as Hb. apply is_byte_true in Hb.
  split; [reflexivity|].
  split; [apply pollForVoltages_simulated_world; exact Hb|].
  split.
  - destruct (sendSummary_simulated getCRC address Ess_curr w Ha) as (f & Hrun & _).
    eexists. exact Hrun.
  - apply balanceTarget_simulated. exact Hb.
Qed.

Lemma assignAddresses_world w :
  exists w',
    assignAddresses getCRC false w = Ok (tt, w') /\
    draws w' = draws w /\
    line w' = drop 9 (line w).
Proof.
  eexists. split.
  - unfold assignAddresses, beep, assignStep, assertTrigger, deassertTrigger.
    unfold NO_BMS, range.
    cbn [seq forM Nat.eqb bind emit reset_input_buffer write ret
         trace rx line draws Nat.sub].
    reflexivity.
  - cbn [draws line]. split; [reflexivity|].
    change (tail (line w)) with (tail (drop 0 (line w))).
    rewrite !tl_drop. reflexivity.
Qed.

(** X10: on the device the driver never uses the random generator:
    [assignAddresses], [pollForVoltages], [sendSummary] and
    [balanceTarget] return with the draws they found; they take 9, 4, 1
    and 1 answers off the bus, one per frame written. *)
Theorem device_leaves_draws (address target Ess_curr : Z) (w : World) :
  0 <= address < 256 ->
  (exists w', assignAddresses getCRC false w = Ok (tt, w') /\
              draws w' = draws w /\ line w' = drop 9 (line w)) /\
  (exists allVoltages w',
      pollForVoltages getCRC false address w = Ok (allVoltages, w') /\
      draws w' = draws w /\ line w' = drop 4 (line w)) /\
  (exists summary w',
      sendSummary getCRC false address Ess_curr w = Ok (summary, w') /\
      draws w' = draws w /\ line w' = drop 1 (line w)) /\
  (exists ack w',
      balanceTarget getCRC false address target w = Ok (ack, w') /\
      draws w' = draws w /\ line w' = drop 1 (line w)).
Proof.
  intros Ha. apply is_byte_true in Ha.
  split; [apply assignAddresses_world|]. split; [|split].
  - destruct (pollForVoltages_real getCRC address w Ha)
      as (w' & Hrun & Hline & Hdraws & _).
    eexists _, w'. split; [exact Hrun|]. split; assumption.
  - destruct (sendSummary_real getCRC address Ess_curr w Ha)
      as (w' & Hrun & Hline & Hdraws & _).
    eexists _, w'. split; [exact Hrun|]. split; assumption.
  - eexists _, _. split; [apply balanceTarget_real; exact Ha|].
    cbn [draws line]. split; [reflexivity|]. destruct (line w); reflexivity.
Qed.

(** X11: on the device a result never depends on bytes left in the
    input buffer, on the draws or on the history: two worlds whose buses
    deliver the same answers give the same voltages, the same summary and
    the same acknowledgment. *)
Theorem stale_input_ignored (address target Ess_curr : Z) (w1 w2 : World) :
  0 <= address < 256 -> line w1 = line w2 ->
  (exists allVoltages,
      returns (pollForVoltages getCRC false address w1) allVoltages /\
      returns (pollForVoltages getCRC false address w2) allVoltages) /\
  (exists summary,
      returns (sendSummary getCRC false address Ess_curr w1) summary /\
      returns (sendSummary getCRC false address Ess_curr w2) summary) /\
  (exists ack,
      returns (balanceTarget getCRC false address target w1) ack /\
      returns (balanceTarget getCRC false address target w2) ack).
Proof.
  intros Ha Hline. apply is_byte_true in Ha.
  assert (Hreply : forall k, reply w1 k = reply w2 k)
    by (intros k; unfold reply; rewrite Hline; reflexivity).
  split; [|split].
  - destruct (pollForVoltages_real getCRC address w1 Ha) as (w1' & H1 & _).
    destruct (pollForVoltages_real getCRC address w2 Ha) as (w2' & H2 & _).
    rewrite !Hreply in H1.
    eexists. split; [exists w1'; exact H1 | exists w2'; exact H2].
  - destruct (sendSummary_real getCRC address Ess_curr w1 Ha) as (w1' & H1 & _).
    destruct (sendSummary_real getCRC address Ess_curr w2 Ha) as (w2' & H2 & _).
    rewrite !Hreply in H1.
    eexists. split; [exists w1'; exact H1 | exists w2'; exact H2].
  - eexists. split; eexists.
    + rewrite balanceTarget_real by exact Ha. rewrite Hline. reflexivity.
    + rewrite balanceTarget_real by exact Ha. reflexivity.
Qed.

(** X12: an answer longer than 14 bytes: [sendSummary] decodes its first
    14 bytes as if the rest had not come, but a targeted [balanceTarget]
    counts the bytes waiting and acknowledges only an answer of exactly
    14. *)
Theorem overlong_reply (addr target Ess_curr : Z) (frame extra : list byte)
    (w : World) :
  0 <= addr < 256 -> addr <> GLOBAL_ADDR -> length frame = 14%nat ->
  let long := mkWorld (rx w) ((frame ++ extra) :: line w) (draws w) (trace w) in
  let exact := mkWorld (rx w) (frame :: line w) (draws w) (trace w) in
  (exists summary,
      returns (sendSummary getCRC false addr Ess_curr long) summary /\
      returns (sendSummary getCRC false addr Ess_curr exact) summary) /\
  returns (balanceTarget getCRC false addr target exact) true /\
  (exists ack,
      returns (balanceTarget getCRC false addr target long) ack /\
      (ack = true <-> extra = [])).
Proof.
  intros Ha Hne Hlen long exact. apply is_byte_true in Ha.
  assert (Hreply : reply long 0 = reply exact 0).
  { unfold reply, long, exact. cbn [line nth]. unfold BM_RESPONSE_LEN.
    rewrite <- Hlen, take_app_length, firstn_all. reflexivity. }
  assert (Hglobal : (addr =? 255) = false) by (apply Z.eqb_neq; exact Hne).
  split; [|split].
  - destruct (sendSummary_real getCRC addr Ess_curr long Ha) as (w1' & H1 & _).
    destruct (sendSummary_real getCRC addr Ess_curr exact Ha) as (w2' & H2 & _).
    rewrite Hreply in H1.
    eexists. split; [exists w1'; exact H1 | exists w2'; exact H2].
  - eexists. rewrite balanceTarget_real by exact Ha.
    unfold exact. cbn [line hd]. rewrite Hglobal, Hlen. reflexivity.
  - eexists. split.
    + eexists. rewrite balanceTarget_real by exact Ha. reflexivity.
    + unfold long. cbn [line hd]. rewrite Hglobal, length_app, Hlen.
      cbn [orb]. rewrite Z.eqb_eq. split.
      * intros H. destruct extra; [reflexivity|]. cbn [length] in H. lia.
      * intros ->. reflexivity.
Qed.

End Modes.

(** ** Sequences of frames *)

Section Sequences.
Variable getCRC : list Z -> Z -> byte.

(** X13: during [assignAddresses] the controller holds its trigger line
    low (active) for exactly the first two frames, board 0's
    [SET_ADDRESS] and [TRIGGER], whatever level it found; the seven frames
    after that go out with the line released, and it stays released. *)
Theorem addressing_trigger_window (lvl : bool) (w : World) :
  exists w' evs,
    assignAddresses getCRC false w = Ok (tt, w') /\
    trace w' = trace w ++ evs /\
    writes evs = addressing_frames getCRC /\
    trigger_at_writes lvl evs =
      [false; false; true; true; true; true; true; true; true] /\
    trigger_after lvl evs = true.
Proof.
  destruct (assignAddresses_real getCRC w) as (w' & Hrun & Htrace).
  eexists w', _. split; [exact Hrun|]. split; [exact Htrace|].
  repeat split.
Qed.

Lemma writes_SerialWrite (fs : list (list Z)) : writes (map SerialWrite fs) = fs.
Proof. induction fs as [|f fs IH]; [reflexivity|]. cbn. f_equal. exact IH. Qed.

Lemma pollBoard_world i battery_voltages w :
  exists w',
    pollBoard getCRC false i battery_voltages w =
      Ok (<[i := polled getCRC (reply w 1) (reply w 2) (reply w 3)]>
            battery_voltages, w') /\
    line w' = drop 5 (line w) /\
    draws w' = draws w /\
    writes (trace w') =
      writes (trace w) ++ board_frames getCRC (item addresses i).
Proof.
  unfold pollBoard, bind.
  destruct (pollForVoltages_real getCRC (item addresses i) w
              (addresses_are_bytes i)) as (w1 & Hpoll & Hline1 & Hd1 & Ht1).
  rewrite Hpoll.
  destruct (sendSummary_real getCRC (item addresses i) Ess_current w1
              (addresses_are_bytes i)) as (w2 & Hsum & Hline2 & Hd2 & Ht2).
  rewrite Hsum. exists w2. split; [reflexivity|].
  split; [rewrite Hline2, Hline1, drop_drop; reflexivity|].
  split; [congruence|].
  rewrite Ht2, Ht1, !writes_app, writes_SerialWrite.
  unfold board_frames. cbn [writes omap list_omap].
  rewrite <- app_assoc. reflexivity.
Qed.

Lemma pollCycle_world battery_voltages w :
  exists battery_voltages' w',
    pollCycle getCRC false battery_voltages w = Ok (battery_voltages', w') /\
    length battery_voltages' = length battery_voltages /\
    (forall i, (i < 3)%nat -> length battery_voltages = 3%nat ->
               nth i battery_voltages' [] = polled_board getCRC w i) /\
    line w' = drop 15 (line w) /\
    draws w' = draws w /\
    writes (trace w') = writes (trace w) ++ cycle_frames getCRC.
Proof.
  destruct (pollCycle_real getCRC battery_voltages w) as (w' & Hrun & Hline).
  eexists _, w'. split; [exact Hrun|].
  split; [rewrite !length_insert; reflexivity|].
  split.
  { intros i Hi Hlen. rewrite row_after_cycle by assumption.
    destruct i as [|[|[|i]]]; [reflexivity .. | lia]. }
  split; [exact Hline|].
  revert Hrun. unfold pollCycle, beep, bind, emit. cbn [rx line draws trace].
  unfold addresses at 1, range. cbn [length seq forM]. unfold bind.
  set (w0 := mkWorld _ _ _ _).
  destruct (pollBoard_world 0 battery_voltages w0) as (w1 & -> & _ & Hd1 & Ht1).
  match goal with
  | |- context [pollBoard getCRC false 1 ?bv w1] =>
      destruct (pollBoard_world 1 bv w1) as (w2 & -> & _ & Hd2 & Ht2)
  end.
  match goal with
  | |- context [pollBoard getCRC false 2 ?bv w2] =>
      destruct (pollBoard_world 2 bv w2) as (w3 & -> & _ & Hd3 & Ht3)
  end.
  unfold ret. intros Heq. injection Heq as _ <-.
  split; [rewrite Hd3, Hd2, Hd1; reflexivity|].
  rewrite Ht3, Ht2, Ht1. unfold w0. cbn [trace].
  rewrite <- !app_assoc, !writes_app. cbn [writes omap list_omap app].
  unfold cycle_frames, addresses. cbn [flat_map item nth].
  rewrite ?app_nil_r, <- ?app_assoc. reflexivity.
Qed.

Lemma pollLoop_world cycles battery_voltages w :
  exists battery_voltages' w',
    pollLoop getCRC false cycles battery_voltages w = Ok (battery_voltages', w') /\
    length battery_voltages' = length battery_voltages /\
    line w' = drop (15 * cycles) (line w) /\
    draws w' = draws w /\
    writes (trace w') =
      writes (trace w) ++ concat (replicate cycles (cycle_frames getCRC)).
Proof.
  revert battery_voltages w.
  induction cycles as [|n IH]; intros bv w.
  - eexists _, _. split; [reflexivity|]. cbn [replicate concat].
    rewrite app_nil_r, Nat.mul_0_r. repeat split.
  - cbn [pollLoop]. unfold bind.
    destruct (pollCycle_world bv w) as (bv1 & w1 & -> & Hlen1 & _ & Hl1 & Hd1 & Ht1).
    destruct (IH bv1 w1) as (bv2 & w2 & Hrun & Hlen2 & Hl2 & Hd2 & Ht2).
    exists bv2, w2. split; [exact Hrun|].
    split; [congruence|].
    split; [rewrite Hl2, Hl1, drop_drop; f_equal; lia|].
    split; [congruence|].
    rewrite Ht2, Ht1. cbn [replicate concat]. rewrite <- !app_assoc. reflexivity.
Qed.

(** X14: a poll cycle writes exactly fifteen frames, five per board in
    the order of the address list (snapshot broadcast, the three voltage
    requests and the summary request to that board), and takes fifteen
    answers off the bus; [cycles] passes of the loop write that sequence
    [cycles] times over. *)
Theorem poll_cycle_frames (cycles : nat) (battery_voltages : list (list Z))
    (w : World) :
  map header (cycle_frames getCRC) =
    flat_map (fun a => [ (CMD_GLOBAL_SNAPSHOT, GLOBAL_ADDR, 0);
                         (CMD_SEND_ALL_VOLTAGES_1, a, 0);
                         (CMD_SEND_ALL_VOLTAGES_2, a, 0);
                         (CMD_SEND_ALL_VOLTAGES_3, a, 0);
                         (CMD_SEND_SUMMARY, a, 0) ]) addresses /\
  written (pollCycle getCRC false battery_voltages) w = cycle_frames getCRC /\
  exists stored w',
    pollLoop getCRC false cycles battery_voltages w = Ok (stored, w') /\
    written (pollLoop getCRC false cycles battery_voltages) w =
      concat (replicate cycles (cycle_frames getCRC)) /\
    line w' = drop (15 * cycles) (line w).
Proof.
  split; [reflexivity|]. split.
  - destruct (pollCycle_world battery_voltages w)
      as (bv' & w' & Hrun & _ & _ & _ & _ & Ht).
    unfold written. rewrite Hrun, Ht. apply drop_app_length.
  - destruct (pollLoop_world cycles battery_voltages w)
      as (bv' & w' & Hrun & _ & Hl & _ & Ht).
    exists bv', w'. split; [exact Hrun|]. split; [|exact Hl].
    unfold written. rewrite Hrun, Ht. apply drop_app_length.
Qed.

Lemma polled_board_ok w i :
  length (polled_board getCRC w i) = 12%nat /\
  Forall (fun v => 0 <= v < 65536) (polled_board getCRC w i).
Proof. split; [apply polled_length | apply polled_in_range]. Qed.

Lemma pollCycle_keeps_stored_ok battery_voltages w :
  stored_ok battery_voltages ->
  exists battery_voltages' w',
    pollCycle getCRC false battery_voltages w = Ok (battery_voltages', w') /\
    stored_ok battery_voltages'.
Proof.
  intros [Hlen Hrows].
  destruct (pollCycle_real getCRC battery_voltages w) as (w' & Hrun & _).
  eexists _, w'. split; [exact Hrun|]. split.
  - rewrite !length_insert. exact Hlen.
  - repeat apply Forall_insert; try exact Hrows; apply polled_board_ok.
Qed.

(** X15: the table of stored voltages keeps its shape through any
    number of poll cycles: three rows of twelve cells, each cell in
    0..65535. *)
Theorem stored_table_invariant (cycles : nat) (battery_voltages : list (list Z))
    (w : World) :
  stored_ok battery_voltages ->
  exists stored w',
    pollLoop getCRC false cycles battery_voltages w = Ok (stored, w') /\
    stored_ok stored.
Proof.
  revert battery_voltages w.
  induction cycles as [|n IH]; intros bv w Hok.
  - exists bv, w. split; [reflexivity | exact Hok].
  - cbn [pollLoop]. unfold bind.
    destruct (pollCycle_keeps_stored_ok bv w Hok) as (bv1 & w1 & -> & Hok1).
    apply IH. exact Hok1.
Qed.

(** X16: the script sends the nine addressing frames first exactly when
    [addressAssigned] is [False], then the poll cycles; it always
    returns a table of three rows. *)
Theorem control_module_frames (addressAssigned : bool) (cycles : nat) (w : World) :
  exists stored w',
    controlModule getCRC false addressAssigned cycles w = Ok (stored, w') /\
    stored_ok stored /\
    written (controlModule getCRC false addressAssigned cycles) w =
      (if addressAssigned then [] else addressing_frames getCRC)
      ++ concat (replicate cycles (cycle_frames getCRC)).
Proof.
  assert (Hinit : stored_ok battery_voltages_init).
  { split; [reflexivity|]. unfold battery_voltages_init, NO_BMS.
    apply Forall_replicate. split; [reflexivity|].
    apply Forall_replicate. lia. }
  unfold written, controlModule, bind. destruct addressAssigned; cbn [negb].
  - unfold ret.
    destruct (stored_table_invariant cycles battery_voltages_init w Hinit)
      as (bv & w' & Hrun & Hok).
    destruct (pollLoop_world cycles battery_voltages_init w)
      as (bv2 & w2 & Hrun2 & _ & _ & _ & Ht).
    rewrite Hrun in Hrun2. injection Hrun2 as <- <-.
    exists bv, w'. rewrite Hrun, Ht. split; [reflexivity|].
    split; [exact Hok|]. apply drop_app_length.
  - destruct (assignAddresses_real getCRC w) as (w1 & Hassign & Ht1).
    rewrite Hassign.
    destruct (stored_table_invariant cycles battery_voltages_init w1 Hinit)
      as (bv & w' & Hrun & Hok).
    destruct (pollLoop_world cycles battery_voltages_init w1)
      as (bv2 & w2 & Hrun2 & _ & _ & _ & Ht).
    rewrite Hrun in Hrun2. injection Hrun2 as <- <-.
    exists bv, w'. rewrite Hrun, Ht, Ht1. split; [reflexivity|].
    split; [exact Hok|].
    rewrite !writes_app, <- !app_assoc. rewrite drop_app_length.
    cbn [writes omap list_omap app].
    rewrite <- (firstn_skipn 2 (addressing_frames getCRC)) at 3.
    rewrite <- !app_assoc.
    change (writes (map SerialWrite (take 2 (addressing_frames getCRC))))
      with (take 2 (addressing_frames getCRC)).
    reflexivity.
Qed.

End Sequences.

(** ** Frames and the lists they are built in *)

Section Fresh.
Variable getCRC : list Z -> Z -> byte.
Hypothesis Hprefix : reads_prefix getCRC.

Lemma seal_prefix (l l' : list Z) :
  length l = 8%nat -> length l' = 8%nat -> take 7 l = take 7 l' ->
  seal getCRC l = seal getCRC l'.
Proof.
  intros Hl Hl' Htake.
  do 9 (destruct l as [|? l]; try discriminate Hl).
  do 9 (destruct l' as [|? l']; try discriminate Hl').
  cbn [take firstn] in Htake. injection Htake as -> -> -> -> -> -> ->.
  unfold seal, crc. cbn [insert list_insert].
  do 7 (apply (f_equal2 cons); [reflexivity|]).
  apply (f_equal2 cons); [|reflexivity].
  apply (f_equal Z_of_byte). apply Hprefix. reflexivity.
Qed.

(** X17: when [getCRC(data, 7)] looks at the first seven items only,
    every frame the driver sends is the frame one would build from
    scratch from its address, command and payload: reusing and updating
    the command lists in [assignAddresses] and [pollForVoltages] (whose
    last item still holds the previous CRC, or 0xFF) leaves no mark. *)
Theorem frames_are_fresh (addr target Ess_curr : Z) :
  addressing_frames getCRC =
    [ fresh_frame getCRC GLOBAL_ADDR CMD_SET_ADDRESS 0xad 0 0 2;
      fresh_frame getCRC 0xad CMD_TRIGGER 0 0 0 0;
      fresh_frame getCRC GLOBAL_ADDR CMD_SET_ADDRESS 0xbc 0 0 2;
      fresh_frame getCRC 0xbc CMD_TRIGGER 0 0 0 0;
      fresh_frame getCRC 0xad CMD_TRIGGER 0 0 0 0;
      fresh_frame getCRC GLOBAL_ADDR CMD_SET_ADDRESS 0xde 0 0 2;
      fresh_frame getCRC 0xde CMD_TRIGGER 0 0 0 0;
      fresh_frame getCRC 0xbc CMD_TRIGGER 0 0 0 0;
      fresh_frame getCRC GLOBAL_ADDR CMD_AUTOADDR_DONE 0 0 0 0 ] /\
  voltage_frames getCRC addr =
    [ fresh_frame getCRC addr CMD_SEND_ALL_VOLTAGES_1 0 0 0 0;
      fresh_frame getCRC addr CMD_SEND_ALL_VOLTAGES_2 0 0 0 0;
      fresh_frame getCRC addr CMD_SEND_ALL_VOLTAGES_3 0 0 0 0 ] /\
  snapshot_frame getCRC Ess_curr =
    fresh_frame getCRC GLOBAL_ADDR CMD_GLOBAL_SNAPSHOT 0 (lsb Ess_curr)
                (msb Ess_curr) 0 /\
  summary_frame getCRC addr Ess_curr =
    fresh_frame getCRC addr CMD_SEND_SUMMARY 0 (lsb Ess_curr) (msb Ess_curr) 0 /\
  balance_frame getCRC addr target =
    fresh_frame getCRC addr CMD_BALANCE_TARGET 0 (lsb (target - 1))
                (msb (target - 1)) 0.
Proof.
  unfold fresh_frame.
  split; [|split; [|split; [|split]]].
  - cbv zeta delta [addressing_frames].
    repeat (apply (f_equal2 cons);
            [apply seal_prefix; reflexivity|]).
    reflexivity.
  - cbv zeta delta [voltage_frames].
    repeat (apply (f_equal2 cons);
            [apply seal_prefix; reflexivity|]).
    reflexivity.
  - apply seal_prefix; reflexivity.
  - apply seal_prefix; reflexivity.
  - apply seal_prefix; reflexivity.
Qed.

End Fresh.

(** Every member of the CRC-8 family looks at the first [n] bytes only. *)
Lemma crc8_reads_prefix (poly init : Z) (reflected : bool) :
  reads_prefix (CRC8.crcCalcCRC8 poly init reflected).
Proof.
  intros data data' n H. unfold CRC8.crcCalcCRC8, CRC8.checksum.
  rewrite H. reflexivity.
Qed.

(** ** [resetTarget] and the simulated summary *)

Section ResetAndMock.
Variable getCRC : list Z -> Z -> byte.

(** X18: [resetTarget] sends to a byte-sized address the balance-target
    frame whose payload is 0x0FFF (4095, that is 4096 - 1), as its
    docstring says, and nothing else. *)
Theorem reset_target_payload (addr : Z) (w : World) :
  0 <= addr < 256 ->
  exists f,
    written (resetTarget getCRC false addr) w = [f] /\
    take 7 f = [HEAD; addr; CMD_BALANCE_TARGET; 0; 0xFF; 0x0F; 0] /\
    Z.lor (item f 4) (Z.shiftl (item f 5) 8) = 0x0FFF.
Proof.
  intros Ha. apply is_byte_true in Ha.
  exists (balance_frame getCRC addr 4096). split.
  - unfold resetTarget.
    rewrite (written_trace _ _ _ _ _ (balanceTarget_real getCRC addr 4096 w Ha)
               eq_refl). reflexivity.
  - split; reflexivity.
Qed.

(** X19: a simulated summary stays inside what the mock response can
    hold: the three voltages are below 4096, the cell index of the
    maximum is at most 11 and the status at most 7. *)
Theorem simulated_summary_ranges (addr Ess_curr : Z) (w : World) :
  0 <= addr < 256 ->
  exists minV minLoc maxV maxLoc avgV temp1 temp2 status,
    returns (sendSummary getCRC true addr Ess_curr w)
            [minV; minLoc; maxV; maxLoc; avgV; temp1; temp2; status] /\
    0 <= minV < 4096 /\ 0 <= maxV < 4096 /\ 0 <= avgV < 4096 /\
    0 <= maxLoc <= 11 /\ 0 <= status <= 7.
Proof.
  intros Ha.
  destruct (sendSummary_simulated getCRC addr Ess_curr w Ha)
    as (f & Hrun & _ & Hb & Hhi & H8 & H12).
  destruct (validResponse getCRC f).
  - eexists _, _, _, _, _, _, _, _. split; [eexists; exact Hrun|].
    assert (Hv : forall hi lo, 0 <= hi < 16 -> 0 <= lo < 256 ->
               0 <= Z.lor (Z.shiftl (Z.land hi 0xff) 8) (Z.land lo 0xff) < 4096).
    { intros hi lo Hh Hl. rewrite !land_byte by lia.
      rewrite lor_shiftl_low by lia. change (2 ^ 8) with 256. lia. }
    assert (Hi : forall i, In i [3; 5; 7]%nat -> 0 <= item f i < 16).
    { intros i Hin. pose proof (Hb i). pose proof (Hhi i Hin). lia. }
    split; [apply Hv; [apply Hi; cbn; tauto | apply Hb]|].
    split; [apply Hv; [apply Hi; cbn; tauto | apply Hb]|].
    split; [apply Hv; [apply Hi; cbn; tauto | apply Hb]|].
    split.
    + rewrite high_nibble_land by apply Hb. unfold high_nibble.
      pose proof (Hb 8%nat). Z.div_mod_to_equations. lia.
    + pose proof (Hb 12%nat). lia.
  - exists 0, 0, 0, 0, 0, 0, 0, 0. split; [eexists; exact Hrun|]. lia.
Qed.

End ResetAndMock.

(** ** The theorems at work on concrete buses *)

(** C1 on the specification's example summary. *)
Lemma C1_summary_decode_witness :
  returns (sendSummary crc8_07 false 0xad 285 summary_example)
          [3000; 3; 3500; 9; 3250; 250; 300; 5].
Proof.
  apply (C1_summary_decode crc8_07 0xad 285 summary_example);
    [lia | reflexivity | reflexivity].
Defined.

(** C2: cell 2 of group 1 after one good poll is 700 mV. *)
Lemma C2_voltage_groups_witness :
  exists allVoltages,
    returns (pollForVoltages crc8_07 false 0xad one_good_poll) allVoltages /\
    length allVoltages = 12%nat /\
    item allVoltages 6 = 700 /\
    map (fun f => item f 2)
        (written (pollForVoltages crc8_07 false 0xad) one_good_poll) =
      [0x46; 0xa0; 0xa1; 0xa2].
Proof.
  apply (C2_voltage_groups crc8_07 0xad one_good_poll 1 2);
    [lia | lia | lia | reflexivity | reflexivity].
Defined.

(** C3: on the bus of [one_good_poll] a summary request gets no answer
    and returns zeros, while the first voltage group is decoded. *)
Lemma C3_validation_gate_witness :
  (exists summary,
      returns (sendSummary crc8_07 false 0xad 285 one_good_poll) summary /\
      summary = replicate 8 0) /\
  (exists allVoltages,
      returns (pollForVoltages crc8_07 false 0xad one_good_poll) allVoltages /\
      group 0 allVoltages = [100; 200; 300; 400]).
Proof.
  destruct (C3_validation_gate crc8_07 0xad 285 one_good_poll ltac:(lia))
    as [(summary & Hs & _ & Hfail) (allVoltages & Ha & Hgroups)].
  split.
  - exists summary. split; [exact Hs|].
    apply Hfail. intros [Hlen _]. discriminate Hlen.
  - exists allVoltages. split; [exact Ha|].
    apply (Hgroups 0%nat ltac:(lia)). split; reflexivity.
Defined.

(** C6 for the target 3300 mV. *)
Lemma C6_balance_target_payload_witness :
  exists f,
    balanceTargetFrame crc8_07 0xad 3300 silent = Ok (f, silent) /\
    written (balanceTarget crc8_07 false 0xad 3300) silent = [f] /\
    item f 4 = Z.land (3300 - 1) 0xFF /\
    item f 5 = Z.land (Z.shiftr (3300 - 1) 8) 0xFF /\
    (3300 <= 65536 -> Z.lor (item f 4) (Z.shiftl (item f 5) 8) = 3300 - 1) /\
    (3300 = 3300 -> item f 4 = 227 /\ item f 5 = 12).
Proof.
  apply (C6_balance_target_payload crc8_07 0xad 3300 silent); lia.
Defined.

(** C7 on a silent bus: a targeted command is not acknowledged. *)
Lemma C7_balance_acknowledgment_witness :
  exists ack w',
    balanceTarget crc8_07 false 0xad 3300 silent = Ok (ack, w') /\
    ack = false.
Proof.
  destruct (C7_balance_acknowledgment crc8_07 0xad 3300 silent ltac:(lia))
    as (ack & w' & Hrun & _ & Htargeted & Hrx & _ & _).
  exists ack, w'. split; [exact Hrun|].
  destruct ack; [|reflexivity].
  assert (Hlen : length (rx w') = 14%nat)
    by (apply Htargeted; [discriminate | reflexivity]).
  rewrite Hrx in Hlen. discriminate Hlen.
Defined.

(** C8: in the cycle of [one_good_poll] board 1 hears nothing, and its
    first group is stored as zeros. *)
Lemma C8_failed_frame_stores_zeros_witness :
  exists battery_voltages' w',
    pollCycle crc8_07 false battery_voltages_init one_good_poll
      = Ok (battery_voltages', w') /\
    group 0 (nth 1 battery_voltages' []) = replicate 4 0.
Proof.
  destruct (C8_failed_frame_stores_zeros crc8_07 battery_voltages_init
              one_good_poll 1 0 eq_refl ltac:(lia) ltac:(lia))
    as (bv & w' & Hrun & _ & _ & Hzero & _).
  - intros [Hlen _]. discriminate Hlen.
  - exists bv, w'. split; assumption.
Defined.

(** C9 for the polynomial 0x07. *)
Lemma C9_command_frames_validate_witness :
  Forall (fun f => length f = 8%nat /\ crc crc8_07 f 8 = 0)
    ([balance_frame crc8_07 0xad 3300; summary_frame crc8_07 0xad 285;
      snapshot_frame crc8_07 285; snapshot_frame crc8_07 Ess_current]
     ++ voltage_frames crc8_07 0xad ++ addressing_frames crc8_07).
Proof.
  apply (C9_command_frames_validate 0x07 0 false 0xad 3300 285 silent). lia.
Defined.

(** C10 on a simulation and a device that answers with its mock
    responses. *)
Lemma C10_simulated_path_adds_one_witness :
  exists simulated device,
    returns (pollForVoltages crc8_07 true 0xad simulation_example) simulated /\
    returns (pollForVoltages crc8_07 false 0xad device_echo) device /\
    item simulated 0 = item device 0 + 1.
Proof.
  destruct (C10_simulated_path_adds_one crc8_07 0xad simulation_example
              device_echo ltac:(lia) eq_refl)
    as (simulated & device & Hs & Hd & Hcells).
  exists simulated, device. split; [exact Hs|]. split; [exact Hd|].
  destruct (Hcells 0%nat ltac:(lia)) as [Hpass _].
  destruct (Hpass ltac:(split; reflexivity) 0%nat ltac:(lia)) as (H1 & H2 & _).
  cbn [Nat.mul Nat.add] in H1, H2. rewrite H1, H2. reflexivity.
Defined.

(** ** The further properties at work on concrete buses *)

(** X1 for the address 0x1AD. *)
Lemma bad_address_raises_witness :
  pollForVoltages crc8_07 false 0x1ad silent = Raise ValueError /\
  sendSummary crc8_07 false 0x1ad 285 silent = Raise ValueError /\
  balanceTarget crc8_07 false 0x1ad 3300 silent = Raise ValueError.
Proof. apply (bad_address_raises crc8_07 false 0x1ad 3300 285 silent). lia. Defined.

(** X2 for the target 0, sent as 0xFFFF. *)
Lemma balance_target_wraps_witness :
  exists f,
    written (balanceTarget crc8_07 false 0xad 0) silent = [f] /\
    Z.lor (item f 4) (Z.shiftl (item f 5) 8) = 65535.
Proof.
  destruct (balance_target_wraps crc8_07 0xad 0 silent ltac:(lia))
    as (f & Hw & _ & _ & _ & Hv).
  exists f. split; [exact Hw | exact Hv].
Defined.

(** X4 for the module's system current, 285 mA. *)
Lemma summary_request_witness :
  exists f,
    written (sendSummary crc8_07 false 0xad 285) silent = [f] /\
    length f = 8%nat /\
    take 7 f = [0x58; 0xad; 0x50; 0; 29; 1; 0] /\
    Z.lor (item f 4) (Z.shiftl (item f 5) 8) = 285.
Proof. apply (summary_request crc8_07 0xad 285 silent). lia. Defined.

(** X5 on a simulation. *)
Lemma poll_result_shape_witness :
  exists allVoltages,
    returns (pollForVoltages crc8_07 true 0xad simulation_example) allVoltages /\
    length allVoltages = 12%nat /\
    Forall (fun v => 0 <= v <= 4096) allVoltages.
Proof.
  destruct (poll_result_shape crc8_07 true 0xad simulation_example ltac:(lia))
    as (allVoltages & Hrun & Hlen & _ & Hsim).
  exists allVoltages. split; [exact Hrun|]. split; [exact Hlen|].
  apply Hsim. reflexivity.
Defined.

(** X6 on the example summary. *)
Lemma summary_result_shape_witness :
  exists summary,
    returns (sendSummary crc8_07 false 0xad 285 summary_example) summary /\
    Forall2 (fun v bound => 0 <= v < bound) summary summary_bounds.
Proof. apply (summary_result_shape crc8_07 false 0xad 285 summary_example). lia. Defined.

(** X7: the second group of [one_good_poll]. *)
Lemma voltage_round_trip_witness :
  exists allVoltages,
    returns (pollForVoltages crc8_07 false 0xad one_good_poll) allVoltages /\
    group 1 allVoltages = [500; 600; 700; 800].
Proof.
  apply (voltage_round_trip crc8_07 0xad one_good_poll 1 500 600 700 800
           0x58 0xad 0 0 0 74);
    try lia; reflexivity.
Defined.

(** X8: the example summary, field by field. *)
Lemma summary_round_trip_witness :
  returns (sendSummary crc8_07 false 0xad 285 summary_example)
          [3000; 3; 3500; 9; 3250; 250; 300; 5].
Proof.
  apply (summary_round_trip crc8_07 0xad 285 summary_example
           3000 3 3500 9 3250 250 300 5 0x58 0xad 144);
    try lia; reflexivity.
Defined.

(** X9 on a simulation. *)
Lemma simulation_leaves_port_witness :
  assignAddresses crc8_07 true simulation_example = Ok (tt, simulation_example) /\
  balanceTarget crc8_07 true 0xad 3300 simulation_example =
    Ok (true, mkWorld [] [] (draws simulation_example) [Buzzer true; Buzzer false]).
Proof.
  destruct (simulation_leaves_port crc8_07 0xad 3300 285 simulation_example
              ltac:(lia)) as (Hassign & _ & _ & Hbalance).
  split; [exact Hassign | exact Hbalance].
Defined.

(** X10 on the bus of [one_good_poll]. *)
Lemma device_leaves_draws_witness :
  exists allVoltages w',
    pollForVoltages crc8_07 false 0xad one_good_poll = Ok (allVoltages, w') /\
    draws w' = [] /\ line w' = [].
Proof.
  destruct (device_leaves_draws crc8_07 0xad 3300 285 one_good_poll ltac:(lia))
    as (_ & (allVoltages & w' & Hrun & Hd & Hl) & _).
  exists allVoltages, w'. split; [exact Hrun|]. split; assumption.
Defined.

(** X11: stale bytes in the input buffer do not change the poll. *)
Lemma stale_input_ignored_witness :
  exists allVoltages,
    returns (pollForVoltages crc8_07 false 0xad one_good_poll) allVoltages /\
    returns (pollForVoltages crc8_07 false 0xad
               (mkWorld [x01; x02; x03] (line one_good_poll) [7; 8] []))
            allVoltages.
Proof.
  destruct (stale_input_ignored crc8_07 0xad 3300 285 one_good_poll
              (mkWorld [x01; x02; x03] (line one_good_poll) [7; 8] [])
              ltac:(lia) eq_refl) as (Hpoll & _).
  exact Hpoll.
Defined.

(** X12: one byte too many is not acknowledged. *)
Lemma overlong_reply_witness :
  exists ack,
    returns (balanceTarget crc8_07 false 0xad 3300
               (mkWorld [] [replicate 14 x00 ++ [x01]] [] [])) ack /\
    (ack = true <-> [x01] = []).
Proof.
  destruct (overlong_reply crc8_07 0xad 3300 285 (replicate 14 x00) [x01] silent
              ltac:(lia) ltac:(discriminate) eq_refl) as (_ & _ & Hack).
  exact Hack.
Defined.

(** X15 from the initial table, two cycles on. *)
Lemma stored_table_invariant_witness :
  exists stored w',
    pollLoop crc8_07 false 2 battery_voltages_init one_good_poll = Ok (stored, w') /\
    stored_ok stored.
Proof.
  apply (stored_table_invariant crc8_07 2 battery_voltages_init one_good_poll).
  split; [reflexivity|].
  unfold battery_voltages_init, NO_BMS. cbn [replicate].
  repeat constructor; lia.
Defined.

(** X17 for the polynomial 0x07: the two [TRIGGER] frames to board 0xAD
    are the same frame. *)
Lemma frames_are_fresh_witness :
  nth 1 (addressing_frames crc8_07) [] = nth 4 (addressing_frames crc8_07) [] /\
  nth 1 (addressing_frames crc8_07) [] = fresh_frame crc8_07 0xad CMD_TRIGGER 0 0 0 0.
Proof.
  assert (Hprefix : reads_prefix crc8_07).
  { intros data data' n H. unfold crc8_07, CRC8.crcCalcCRC8, CRC8.checksum.
    rewrite H. reflexivity. }
  destruct (frames_are_fresh crc8_07 Hprefix 0xad 3300 285) as (Haddr & _).
  rewrite Haddr. split; reflexivity.
Defined.

(** X18 for board 0xAD. *)
Lemma reset_target_payload_witness :
  exists f,
    written (resetTarget crc8_07 false 0xad) silent = [f] /\
    take 7 f = [0x58; 0xad; 0xaa; 0; 0xFF; 0x0F; 0] /\
    Z.lor (item f 4) (Z.shiftl (item f 5) 8) = 4095.
Proof. apply (reset_target_payload crc8_07 0xad silent). lia. Defined.

(** X19 on a simulation. *)
Lemma simulated_summary_ranges_witness :
  exists minV minLoc maxV maxLoc avgV temp1 temp2 status,
    returns (sendSummary crc8_07 true 0xad 285 simulation_example)
            [minV; minLoc; maxV; maxLoc; avgV; temp1; temp2; status] /\
    0 <= minV < 4096 /\ 0 <= maxV < 4096 /\ 0 <= avgV < 4096 /\
    0 <= maxLoc <= 11 /\ 0 <= status <= 7.
Proof. apply (simulated_summary_ranges crc8_07 0xad 285 simulation_example). lia. Defined.
